(** * Two-stage generative research summarizer: the API client and the
      pipeline handler of [research_paper_summarizer_ui.py]

    The development embeds the Python module shallowly.

    - Python [str] values are lists of Unicode code points, so that
      [str.strip] and the [in] substring test are the ones of Python.
    - JSON-like Python values (the request payload, the value returned by
      [response.json()]) are the inductive type [pyval].
    - Exceptions are values [Exc cls args]; a computation either ends
      normally or raises ([ctl]).
    - The outside world (the HTTP endpoint, the Streamlit page, the clock)
      is explicit state: a log of events and the number of POSTs sent so
      far.  The answer of the network to the n-th POST is given by an
      oracle [net], a variable of the sections below.
    - The first embedding takes the arguments at the kinds the module
      passes (strings and integers) and exceptions derived from
      [Exception]; [Boundary] embeds the client once more for arguments of
      any kind and for exceptions of any class. *)

From Stdlib Require Import List ZArith NArith QArith_base Bool Lia.
From Stdlib Require Import String Ascii DecimalString.
Import ListNotations.
Local Open Scope Z_scope.

(** ** Python strings *)

Module PyStr.

Definition pystr := list N.

(** An ASCII literal of the source as a Python string. *)
Definition py (s : string) : pystr :=
  map N_of_ascii (list_ascii_of_string s).

Definition eqb (a b : pystr) : bool :=
  if list_eq_dec N.eq_dec a b then true else false.

(** [str(n)] for an [int]. *)
Definition str_int (z : Z) : pystr :=
  py (NilZero.string_of_int (Z.to_int z)).

(** [str.isspace] on one code point: the characters CPython classifies as
    whitespace ([_PyUnicode_IsWhitespace]). *)
Definition isspace (c : N) : bool :=
  ((9 <=? c) && (c <=? 13) || (28 <=? c) && (c <=? 32)
   || (c =? 133) || (c =? 160) || (c =? 5760)
   || (8192 <=? c) && (c <=? 8202)
   || (c =? 8232) || (c =? 8233) || (c =? 8239) || (c =? 8287)
   || (c =? 12288))%N.

Fixpoint lstrip (s : pystr) : pystr :=
  match s with
  | c :: t => if isspace c then lstrip t else s
  | [] => []
  end.

Definition rstrip (s : pystr) : pystr := rev (lstrip (rev s)).

(** [s.strip()] *)
Definition strip (s : pystr) : pystr := rstrip (lstrip s).

Fixpoint startswith (s p : pystr) : bool :=
  match p, s with
  | [], _ => true
  | a :: p', b :: s' => (a =? b)%N && startswith s' p'
  | _ :: _, [] => false
  end.

(** [p in s] for two strings. *)
Fixpoint contains (p s : pystr) : bool :=
  startswith s p ||
  match s with
  | [] => false
  | _ :: t => contains p t
  end.

(** Truth value of a string: [not s] is [negb (truthy s)]. *)
Definition truthy (s : pystr) : bool :=
  match s with [] => false | _ :: _ => true end.

End PyStr.
Import PyStr.

(** ** Python values and exceptions *)

#[warnings="-register-all"]
Inductive pyval :=
| PNone
| PBool (b : bool)
| PInt (z : Z)
| PFloat (q : Q)
| PStr (s : pystr)
| PList (l : list pyval)
| PDict (d : list (pystr * pyval)).

(** The exception classes derived from [Exception] that the module can
    meet.  The first five are [requests.exceptions.RequestException] and its
    subclasses.  Exceptions derived from [BaseException] alone
    ([KeyboardInterrupt] and the like) are not in this type: they are added
    in [Boundary] below, where the call is embedded with them. *)
Inductive exc_class :=
| RequestException | HTTPError | ConnectionError | Timeout
| RequestsJSONDecodeError
| JSONDecodeError | ValueError | IndexError | KeyError | TypeError
| AttributeError | OtherException (name : string).

Inductive exc := Exc (cls : exc_class) (args : list pyval).

Definition exc_cls (e : exc) : exc_class := let (c, _) := e in c.

(** [isinstance(e, requests.exceptions.RequestException)] *)
Definition is_RequestException (e : exc) : bool :=
  match exc_cls e with
  | RequestException | HTTPError | ConnectionError | Timeout
  | RequestsJSONDecodeError => true
  | _ => false
  end.

(** [isinstance(e, Exception)], for an exception of the classes above. *)
Definition is_Exception (e : exc) : bool := true.

Inductive ctl (A : Type) :=
| Normal (a : A)
| Raised (e : exc).
Arguments Normal {A} a.
Arguments Raised {A} e.

Definition ctl_bind {A B} (c : ctl A) (k : A -> ctl B) : ctl B :=
  match c with
  | Normal a => k a
  | Raised e => Raised e
  end.

Module PyVal.

Definition type_name (v : pyval) : string :=
  match v with
  | PNone => "NoneType"
  | PBool _ => "bool"
  | PInt _ => "int"
  | PFloat _ => "float"
  | PStr _ => "str"
  | PList _ => "list"
  | PDict _ => "dict"
  end.

Definition no_attribute (v : pyval) (attr : string) : exc :=
  Exc AttributeError
    [PStr (py ("'" ++ type_name v ++ "' object has no attribute '"
               ++ attr ++ "'"))].

Fixpoint lookup {V} (d : list (pystr * V)) (k : pystr) : option V :=
  match d with
  | [] => None
  | (k', v) :: d' => if PyStr.eqb k' k then Some v else lookup d' k
  end.

(** [v.get(key, default)] *)
Definition get (v : pyval) (key : pystr) (default : pyval) : ctl pyval :=
  match v with
  | PDict d =>
      match lookup d key with
      | Some x => Normal x
      | None => Normal default
      end
  | _ => Raised (no_attribute v "get")
  end.

(** [v[0]] *)
Definition index0 (v : pyval) : ctl pyval :=
  match v with
  | PList (x :: _) => Normal x
  | PList [] => Raised (Exc IndexError [PStr (py "list index out of range")])
  | PStr (c :: _) => Normal (PStr [c])
  | PStr [] => Raised (Exc IndexError [PStr (py "string index out of range")])
  | PDict _ => Raised (Exc KeyError [PInt 0])
  | _ => Raised (Exc TypeError
                   [PStr (py ("'" ++ type_name v
                              ++ "' object is not subscriptable"))])
  end.

(** [v.strip()] *)
Definition strip (v : pyval) : ctl pystr :=
  match v with
  | PStr s => Normal (PyStr.strip s)
  | _ => Raised (no_attribute v "strip")
  end.

(** [d[key]] on a dictionary with string keys. *)
Definition getitem {V} (d : list (pystr * V)) (key : pystr) : ctl V :=
  match lookup d key with
  | Some x => Normal x
  | None => Raised (Exc KeyError [PStr key])
  end.

End PyVal.

(** ** The outside world *)

Record Request := {
  req_url : pystr;
  req_headers : list (pystr * pystr);
  (** [data=json.dumps(payload)]: the payload is kept as the value that is
      serialised. *)
  req_data : pyval
}.

Record Response := {
  status_code : Z;
  reason : pystr;
  resp_url : pystr;
  (** what [response.json()] does: the decoded body, or the exception the
      decoder raises *)
  json : ctl pyval
}.

(** One piece of an f-string shown on the page: text, or [str(e)] of an
    exception. *)
Inductive frag :=
| Text (s : pystr)
| StrOf (e : exc).

Definition message := list frag.

Inductive event :=
| EPost (r : Request)                 (* requests.post *)
| ESleep (seconds : Z)                (* time.sleep *)
| EError (m : message)                (* st.error *)
| ESpinner (m : message)              (* with st.spinner *)
| ESubheader (m : message)            (* st.subheader *)
| EMarkdown (m : message)             (* st.markdown *)
| EExpander (m : message)             (* with st.expander *)
| ECode (s : pystr)                   (* st.code *)
| ECallGenerate (title : pystr)       (* entry of generate_paper_content *)
| ECallSummarize (content title style length : pystr).
                                      (* entry of summarize_content *)

Record world := {
  sent : nat;          (* POSTs sent so far *)
  log : list event     (* everything that happened, oldest first *)
}.

Definition emit (e : event) (w : world) : world :=
  {| sent := sent w; log := log w ++ [e] |}.

(** Computations that act on the world and may raise. *)
Definition M (A : Type) := world -> ctl A * world.

Definition ret {A} (a : A) : M A := fun w => (Normal a, w).

Definition bind {A B} (m : M A) (k : A -> M B) : M B :=
  fun w =>
    match m w with
    | (Normal a, w') => k a w'
    | (Raised e, w') => (Raised e, w')
    end.

Definition lift {A} (c : ctl A) : M A := fun w => (c, w).

Declare Scope py_scope.
Delimit Scope py_scope with py.
Notation "x <- m ;; k" := (bind m (fun x => k))
  (at level 61, m at next level, right associativity) : py_scope.
Notation "m ;;; k" := (bind m (fun _ => k))
  (at level 61, right associativity) : py_scope.
Local Open Scope py_scope.

(** [try: body  except C1 as e: h1 e  except C2 as e: h2 e]: the first
    handler whose class test accepts the exception runs; with none the
    exception goes on to the caller. *)
Definition try_except {A} (body : M A)
    (handlers : list ((exc -> bool) * (exc -> M A))) : M A :=
  fun w =>
    match body w with
    | (Normal a, w') => (Normal a, w')
    | (Raised e, w') =>
        match find (fun h => fst h e) handlers with
        | Some h => snd h e w'
        | None => (Raised e, w')
        end
    end.

Definition st_error (m : message) : M unit :=
  fun w => (Normal tt, emit (EError m) w).

Definition time_sleep (seconds : Z) : M unit :=
  fun w => (Normal tt, emit (ESleep seconds) w).

(** [response.raise_for_status()] of the requests library. *)
Definition raise_for_status (r : Response) : ctl unit :=
  let http_error (kind : string) :=
    Exc HTTPError
      [PStr (str_int (status_code r) ++ py kind ++ reason r
             ++ py " for url: " ++ resp_url r)] in
  if (400 <=? status_code r) && (status_code r <? 500)
  then Raised (http_error " Client Error: "%string)
  else if (500 <=? status_code r) && (status_code r <? 600)
  then Raised (http_error " Server Error: "%string)
  else Normal tt.

(** [range(n)] *)
Definition range (n : Z) : list Z := map Z.of_nat (seq 0 (Z.to_nat n)).

(** ** Configuration: the module's globals *)

Record config := {
  API_KEY : pystr;
  API_URL : pystr;
  MODEL_ID : pystr
}.

Definition module_config : config := {|
  API_KEY := py "YOUR_GEMINI_API_KEY";
  API_URL := py "https://generativelanguage.googleapis.com/v1beta/models/gemini-2.0-flash:generateContent";
  MODEL_ID := py "Gemini 2.0 Flash"
|}.

(** ** The program *)

Section Program.

(** The network: what the [n]-th POST of the run gets, an exception raised
    by [requests.post] or a response. *)
Variable net : nat -> Request -> exc + Response.

(** [requests.post(url, headers=headers, data=data)] *)
Definition requests_post (r : Request) : M Response :=
  fun w =>
    let w' := {| sent := S (sent w); log := log w ++ [EPost r] |} in
    match net (sent w) r with
    | inl e => (Raised e, w')
    | inr resp => (Normal resp, w')
    end.

Variable cfg : config.

(** *** gemini_api_call *)

Definition headers : list (pystr * pystr) :=
  [(py "Content-Type", py "application/json")].

Definition temperature (system_instruction : pystr) : Q :=
  if contains (py "Summarize") system_instruction
  then (7 # 10)%Q else (9 # 10)%Q.

Definition generation_config (system_instruction : pystr) (max_tokens : Z)
  : pyval :=
  PDict [(py "maxOutputTokens", PInt max_tokens);
         (py "temperature", PFloat (temperature system_instruction))].

Definition payload (user_prompt system_instruction : pystr) (max_tokens : Z)
  : pyval :=
  PDict
    [(py "contents",
      PList [PDict [(py "parts",
                     PList [PDict [(py "text", PStr user_prompt)]])]]);
     (py "systemInstruction",
      PDict [(py "parts",
              PList [PDict [(py "text", PStr system_instruction)]])]);
     (py "generationConfig",
      generation_config system_instruction max_tokens)].

(** [f"{API_URL}?key={API_KEY}" if API_KEY else API_URL] *)
Definition url : pystr :=
  if truthy (API_KEY cfg)
  then API_URL cfg ++ py "?key=" ++ API_KEY cfg
  else API_URL cfg.

Definition request (user_prompt system_instruction : pystr) (max_tokens : Z)
  : Request :=
  {| req_url := url;
     req_headers := headers;
     req_data := payload user_prompt system_instruction max_tokens |}.

(** Lines 64-65: the text of the first part of the first candidate. *)
Definition extract_text (result : pyval) : ctl pystr :=
  ctl_bind (PyVal.get result (py "candidates") (PList [PDict []]))
    (fun candidates =>
  ctl_bind (PyVal.index0 candidates) (fun candidate =>
  ctl_bind (PyVal.get candidate (py "content") (PDict [])) (fun content =>
  ctl_bind (PyVal.get content (py "parts") (PList [PDict []])) (fun parts =>
  ctl_bind (PyVal.index0 parts) (fun part =>
  ctl_bind (PyVal.get part (py "text") (PStr [])) (fun text =>
  PyVal.strip text)))))).

Definition msg_forbidden : message :=
  [Text (py "API Error (403 Forbidden): The API key is missing or invalid. If running locally, please ensure API_KEY is set in the script.")].

Definition msg_final (retry_count : Z) (e : exc) : message :=
  [Text (py "Final API call failed after "); Text (str_int retry_count);
   Text (py " attempts: "); StrOf e].

Definition msg_unexpected (e : exc) : message :=
  [Text (py "An unexpected error occurred during API processing: ");
   StrOf e].

(** The body of the [try] of one iteration.  Every path through it ends in
    a [return]; the value is what the function returns. *)
Definition try_body (r : Request) : M (option pystr) :=
  response <- requests_post r ;;
  if status_code response =? 403 then
    st_error msg_forbidden ;;;
    ret (Some [])
  else
    lift (raise_for_status response) ;;;
    result <- lift (json response) ;;
    text <- lift (extract_text result) ;;
    ret (Some text).

(** One iteration of the loop: [Some s] when the function returns [s],
    [None] when the loop goes on. *)
Definition iteration (r : Request) (retry_count i : Z) : M (option pystr) :=
  try_except (try_body r)
    [ (is_RequestException,
       fun e =>
         if i <? retry_count - 1 then
           time_sleep (2 ^ i) ;;;
           ret None
         else
           st_error (msg_final retry_count e) ;;;
           ret (Some []));
      (is_Exception,
       fun e =>
         st_error (msg_unexpected e) ;;;
         ret (Some [])) ].

(** [for i in <indices>: <body>] followed by the final [return ""]. *)
Fixpoint for_loop (body : Z -> M (option pystr)) (indices : list Z)
  : M pystr :=
  match indices with
  | [] => ret []
  | i :: rest =>
      r <- body i ;;
      match r with
      | Some s => ret s
      | None => for_loop body rest
      end
  end.

Definition gemini_api_call (user_prompt system_instruction : pystr)
    (max_tokens retry_count : Z) : M pystr :=
  for_loop (iteration (request user_prompt system_instruction max_tokens)
              retry_count)
    (range retry_count).

(** *** generate_paper_content *)

Definition generation_system_prompt : pystr :=
  py ("You are an academic writer and expert in AI. Your task is to generate a detailed, high-quality, "
      ++ "and professionally structured abstract for a machine learning research paper. "
      ++ "The abstract must include the motivation, method, results, and conclusion.").

Definition generation_user_query (title : pystr) : pystr :=
  py "Write a detailed, 250-word abstract for a research paper titled '"
  ++ title ++ py "'. ".

Definition generate_paper_content (title : pystr) : M pystr :=
  fun w =>
    gemini_api_call (generation_user_query title) generation_system_prompt
      600 3 (emit (ECallGenerate title) w).

(** *** summarize_content *)

Definition max_tokens_map : list (pystr * Z) :=
  [(py "Short (1-2 paragraphs)", 150);
   (py "Medium (3-5 paragraphs)", 300);
   (py "Long (detailed explanation)", 450)].

Definition summary_system_prompt : pystr :=
  py ("You are a skilled explainer. Your task is to summarize a complex research paper abstract. "
      ++ "You must adhere strictly to the requested style and length. Do not add any introductory or concluding phrases outside of the summary content.").

Definition summary_user_query (content title style length : pystr) : pystr :=
  py "Summarize the following research paper abstract for the paper titled '"
  ++ title ++ py "'. "
  ++ py "The explanation should be written in a **" ++ style
  ++ py "** style, and the summary length "
  ++ py "must be **" ++ length
  ++ py "**, focusing on core findings and implications. "
  ++ py "Abstract to summarize: " ++ [10; 10]%N ++ content.

Definition summarize_content (content title style length : pystr) : M pystr :=
  fun w =>
    (max_tokens <- lift (PyVal.getitem max_tokens_map length) ;;
     gemini_api_call (summary_user_query content title style length)
       summary_system_prompt max_tokens 3)
      (emit (ECallSummarize content title style length) w).

(** *** The handler of the Generate & Summarize button *)

(** How a run of the script ends: at its last line, or at [st.stop()]. *)
Inductive script_end := Completed | Stopped.

Definition msg_no_title : message :=
  [Text (py "Please provide a paper title before continuing.")].

Definition msg_spinner1 (paper_input : pystr) : message :=
  [Text (py "Stage 1: Generating detailed abstract for '");
   Text paper_input; Text (py "' using "); Text (MODEL_ID cfg);
   Text (py "...")].

Definition msg_stage1_error (e : exc) : message :=
  [Text (py "Error in Stage 1 (Abstract Generation): "); StrOf e;
   Text (py ". Please check the console for more details.")].

Definition msg_stage1_failed : message :=
  [Text (py "Stage 1 failed to generate content from the **");
   Text (MODEL_ID cfg);
   Text (py "** API. This usually indicates an API key or connectivity issue.")].

Definition msg_subheader (paper_input : pystr) : message :=
  [Text (py "Summary of '"); Text paper_input; Text (py "'")].

Definition msg_style_length (style_input length_input : pystr) : message :=
  [Text (py "Style: **"); Text style_input; Text (py "** | Length: **");
   Text length_input; Text (py "**")].

Definition msg_spinner2 : message :=
  [Text (py "Stage 2: Summarizing and styling using "); Text (MODEL_ID cfg);
   Text (py "...")].

Definition msg_stage2_error (e : exc) : message :=
  [Text (py "Error in Stage 2 (Summarization): "); StrOf e;
   Text (py ". Please check the console for more details.")].

Definition msg_stage2_failed : message :=
  [Text (py "Stage 2 failed to generate content from the **");
   Text (MODEL_ID cfg);
   Text (py "** API. This could be due to a connectivity issue.")].

Definition msg_expander : message :=
  [Text (py "View Model-Generated Abstract (Input for Summarization)")].

(** Lines 181-207: the [else] branch taken with a non-empty abstract. *)
Definition stage2 (generated_abstract paper_input style_input
    length_input : pystr) (w : world) : script_end * world :=
  let w := emit (ESubheader (msg_subheader paper_input)) w in
  let w := emit (EMarkdown (msg_style_length style_input length_input)) w in
  let w := emit (ESpinner msg_spinner2) w in
  match summarize_content generated_abstract paper_input style_input
          length_input w with
  | (Raised e, w) => (Stopped, emit (EError (msg_stage2_error e)) w)
  | (Normal final_summary, w) =>
      let w := if truthy final_summary then w
               else emit (EError msg_stage2_failed) w in
      let w := emit (EMarkdown [Text (py "---")]) w in
      let w := emit (EMarkdown [Text final_summary]) w in
      let w := emit (EMarkdown [Text (py "---")]) w in
      let w := emit (EExpander msg_expander) w in
      (Completed, emit (ECode generated_abstract) w)
  end.

(** Lines 166-207: what a press of the button runs. *)
Definition on_generate_and_summarize (paper_input style_input
    length_input : pystr) (w : world) : script_end * world :=
  if negb (truthy paper_input) then
    (Completed, emit (EError msg_no_title) w)
  else
    match generate_paper_content paper_input
            (emit (ESpinner (msg_spinner1 paper_input)) w) with
    | (Raised e, w) => (Stopped, emit (EError (msg_stage1_error e)) w)
    | (Normal generated_abstract, w) =>
        if negb (truthy generated_abstract) then
          (Completed, emit (EError msg_stage1_failed) w)
        else
          stage2 generated_abstract paper_input style_input length_input w
    end.

End Program.

(** ** Definitions used by the statements *)

(** The world after one more POST of [r]. *)
Definition posted (r : Request) (w : world) : world :=
  {| sent := S (sent w); log := log w ++ [EPost r] |}.

(** The exception that the [try] body raises when the network answers [o],
    if it raises one: the exception of [requests.post], the [HTTPError] of
    [raise_for_status], the exception of [response.json()] or of the
    extraction.  A 403 response raises nothing. *)
Definition raised_by (o : exc + Response) : option exc :=
  match o with
  | inl e => Some e
  | inr resp =>
      if status_code resp =? 403 then None
      else
        match ctl_bind (raise_for_status resp) (fun _ =>
              ctl_bind (json resp) extract_text) with
        | Raised e => Some e
        | Normal _ => None
        end
  end.

(** The events of [k] failed attempts that were retried, the first of them
    being attempt number [i]. *)
Definition backoff (r : Request) (i k : nat) : list event :=
  flat_map (fun j => [EPost r; ESleep (2 ^ Z.of_nat j)]) (seq i k).

(** The events a call of the client for request [r] may add to the log. *)
Definition api_event (r : Request) (e : event) : Prop :=
  match e with
  | EPost r' => r' = r
  | ESleep _ | EError _ => True
  | _ => False
  end.

Definition posts_of (evs : list event) : list Request :=
  flat_map (fun e => match e with EPost r => [r] | _ => [] end) evs.

Definition sleeps_of (evs : list event) : list Z :=
  flat_map (fun e => match e with ESleep s => [s] | _ => [] end) evs.

Definition errors_of (evs : list event) : list message :=
  flat_map (fun e => match e with EError m => [m] | _ => [] end) evs.

Definition after_backoff (r : Request) (k : nat) (w : world) : world :=
  {| sent := sent w + k; log := log w ++ backoff r 0 k |}.

(** Attempts [0 .. k-1] of a call, counted from world [w], each raise a
    [RequestException]. *)
Definition transient_until (net : nat -> Request -> exc + Response)
    (cfg : config) (user_prompt system_instruction : pystr) (max_tokens : Z)
    (k : nat) (w : world) : Prop :=
  forall j, (j < k)%nat ->
    exists e,
      raised_by
        (net (sent w + j)%nat
           (request cfg user_prompt system_instruction max_tokens)) = Some e
      /\ is_RequestException e = true.

(** The text at [candidates[0].content.parts[0].text] of a decoded body, as
    the interface describes a well-formed response: the body is an object
    whose [candidates] is a list that starts with an object, whose
    [content] is an object, whose [parts] is a list that starts with an
    object, whose [text] is a string. *)
Definition text_at_path (result : pyval) : option pystr :=
  match result with
  | PDict d =>
      match PyVal.lookup d (py "candidates") with
      | Some (PList (PDict candidate :: _)) =>
          match PyVal.lookup candidate (py "content") with
          | Some (PDict content) =>
              match PyVal.lookup content (py "parts") with
              | Some (PList (PDict part :: _)) =>
                  match PyVal.lookup part (py "text") with
                  | Some (PStr x) => Some x
                  | _ => None
                  end
              | _ => None
              end
          | _ => None
          end
      | _ => None
      end
  | _ => None
  end.

Definition generation_config_of (r : Request) : option (list (pystr * pyval)) :=
  match req_data r with
  | PDict d =>
      match PyVal.lookup d (py "generationConfig") with
      | Some (PDict g) => Some g
      | _ => None
      end
  | _ => None
  end.

Definition temperature_of (r : Request) : option Q :=
  match generation_config_of r with
  | Some g =>
      match PyVal.lookup g (py "temperature") with
      | Some (PFloat q) => Some q
      | _ => None
      end
  | None => None
  end.

Definition max_output_tokens_of (r : Request) : option Z :=
  match generation_config_of r with
  | Some g =>
      match PyVal.lookup g (py "maxOutputTokens") with
      | Some (PInt z) => Some z
      | _ => None
      end
  | None => None
  end.

Definition summarize_calls (evs : list event)
  : list (pystr * pystr * pystr * pystr) :=
  flat_map (fun e => match e with
                     | ECallSummarize c t s l => [(c, t, s, l)]
                     | _ => []
                     end) evs.

(** The length categories of the summary and their token ceilings, as the
    specification lists them. *)
Inductive length_category := Short | Medium | Long.

Definition label (c : length_category) : pystr :=
  match c with
  | Short => py "Short (1-2 paragraphs)"
  | Medium => py "Medium (3-5 paragraphs)"
  | Long => py "Long (detailed explanation)"
  end.

Definition budget (c : length_category) : Z :=
  match c with
  | Short => 150
  | Medium => 300
  | Long => 450
  end.

(** Sample data: a fresh world, a well-formed 200 response carrying
    [text], and networks that always answer the same way. *)
Definition world0 : world := {| sent := 0; log := [] |}.

Definition body_with_text (text : pystr) : pyval :=
  PDict [(py "candidates",
          PList [PDict [(py "content",
                         PDict [(py "parts",
                                 PList [PDict [(py "text", PStr text)]])])]])].

Definition response_with (status : Z) (body : ctl pyval) : Response :=
  {| status_code := status; reason := []; resp_url := []; json := body |}.

Definition net_ok (text : pystr) : nat -> Request -> exc + Response :=
  fun _ _ => inr (response_with 200 (Normal (body_with_text text))).

Definition net_status (status : Z) : nat -> Request -> exc + Response :=
  fun _ _ => inr (response_with status (Normal PNone)).

Definition net_raises (e : exc) : nat -> Request -> exc + Response :=
  fun _ _ => inl e.

Definition timed_out : exc := Exc Timeout [PStr (py "timed out")].

Definition unavailable : exc :=
  Exc HTTPError [PStr (py "503 Server Error:  for url: ")].

(** ** Further definitions: the rest of the module's behaviour *)

(** The titles offered by the selection box (lines 15-22). *)
Definition RESEARCH_PAPER_TITLES : list pystr :=
  [py "Attention Is All You Need";
   py "BERT: Pre-training of Deep Bidirectional Transformers";
   py "GPT-3: Language Models are Few-Shot Learners";
   py "Diffusion Models Beat GANs on Image Synthesis";
   py "Reinforcement Learning from Human Feedback (RLHF)";
   py "ImageNet Classification with Deep Convolutional Neural Networks (AlexNet)"].


Definition generate_calls (evs : list event) : list pystr :=
  flat_map (fun e => match e with ECallGenerate t => [t] | _ => [] end) evs.

(** The sum of a list of delays. *)
Definition total (l : list Z) : Z := fold_right Z.add 0 l.

(** The text of the first part of [v], for [v] shaped as
    [{"parts": [{"text": s}]}]. *)
Definition first_part_text (v : pyval) : option pystr :=
  match v with
  | PDict c =>
      match PyVal.lookup c (py "parts") with
      | Some (PList (PDict p :: _)) =>
          match PyVal.lookup p (py "text") with
          | Some (PStr s) => Some s
          | _ => None
          end
      | _ => None
      end
  | _ => None
  end.

(** The user prompt a request carries: [contents[0].parts[0].text]. *)
Definition user_prompt_of (r : Request) : option pystr :=
  match req_data r with
  | PDict d =>
      match PyVal.lookup d (py "contents") with
      | Some (PList (c :: _)) => first_part_text c
      | _ => None
      end
  | _ => None
  end.

(** The system instruction a request carries:
    [systemInstruction.parts[0].text]. *)
Definition system_instruction_of (r : Request) : option pystr :=
  match req_data r with
  | PDict d =>
      match PyVal.lookup d (py "systemInstruction") with
      | Some c => first_part_text c
      | None => None
      end
  | _ => None
  end.

(** A status for which [raise_for_status] raises nothing. *)
Definition not_error_status (status : Z) : Prop :=
  status < 400 \/ 600 <= status.

(** A decoded body in which one of the keys on the way to the text is
    missing, so that the defaults of the [get] calls of lines 64-65 lead to
    the empty text. *)
Definition falls_back (result : pyval) : Prop :=
  exists d,
    result = PDict d /\
    (PyVal.lookup d (py "candidates") = None
     \/ exists candidate rest,
          PyVal.lookup d (py "candidates")
          = Some (PList (PDict candidate :: rest)) /\
          (PyVal.lookup candidate (py "content") = None
           \/ exists content,
                PyVal.lookup candidate (py "content") = Some (PDict content)
                /\
                (PyVal.lookup content (py "parts") = None
                 \/ exists part rest',
                      PyVal.lookup content (py "parts")
                      = Some (PList (PDict part :: rest')) /\
                      PyVal.lookup part (py "text") = None))).

(** What the page shows at the end of Stage 2 (lines 197-207). *)
Definition results_shown (cfg : config) (abstract summary : pystr)
  : list event :=
  (if truthy summary then [] else [EError (msg_stage2_failed cfg)])
  ++ [EMarkdown [Text (py "---")]; EMarkdown [Text summary];
      EMarkdown [Text (py "---")]; EExpander msg_expander; ECode abstract].

(** What the page shows before the call of Stage 2 (lines 182-185). *)
Definition stage2_announced (cfg : config) (title style length : pystr)
  : list event :=
  [ESubheader (msg_subheader title);
   EMarkdown (msg_style_length style length);
   ESpinner (msg_spinner2 cfg)].

(** The events of one call of the client for request [r]: [k] retried
    attempts, the last POST, and what follows it. *)
Definition call_log (r : Request) (k : nat) (tail : list event)
  : list event :=
  backoff r 0 k ++ EPost r :: tail.

(** The request of Stage 1 for a title, and of Stage 2 for an abstract. *)
Definition stage1_request (cfg : config) (title : pystr) : Request :=
  request cfg (generation_user_query title) generation_system_prompt 600.

Definition stage2_request (cfg : config) (content title style : pystr)
    (c : length_category) : Request :=
  request cfg (summary_user_query content title style (label c))
    summary_system_prompt (budget c).

(** More sample data: a network that gives a list of answers in turn and
    then repeats a last one, and the names used in the samples. *)
Definition net_seq (answers : list (exc + Response))
    (then_always : exc + Response) : nat -> Request -> exc + Response :=
  fun n _ => nth n answers then_always.

Definition index_error : exc :=
  Exc IndexError [PStr (py "list index out of range")].

Definition empty_candidates_response : Response :=
  response_with 200 (Normal (PDict [(py "candidates", PList [])])).

Definition keyless_config : config := {|
  API_KEY := [];
  API_URL := py "https://generativelanguage.googleapis.com/v1beta/models/gemini-2.0-flash:generateContent";
  MODEL_ID := py "Gemini 2.0 Flash"
|}.

Definition sample_title : pystr := py "Attention Is All You Need".

Definition sample_style : pystr := py "Technical".

Definition abstract_response : Response :=
  response_with 200 (Normal (body_with_text (py "  An abstract.  "))).

Definition summary_response : Response :=
  response_with 200 (Normal (body_with_text (py "A summary."))).

(** ** The call at its boundary

    The definitions above fix the kinds of the arguments (two strings, two
    integers) and let the network raise only exceptions derived from
    [Exception].  Python fixes neither.  This module embeds lines 26-79
    once more with arguments that are arbitrary values and with a transport
    and a decoder that may also raise exceptions derived from
    [BaseException] alone, such as [KeyboardInterrupt]. *)

Module Boundary.

(** Classes derived from [BaseException] and not from [Exception]. *)
Inductive base_class := KeyboardInterrupt | SystemExit | GeneratorExit.

(** Anything that can be raised. *)
Inductive raised :=
| Ordinary (e : exc)
| BaseOnly (c : base_class) (args : list pyval).

Inductive result (A : Type) :=
| Returns (a : A)
| Raises (x : raised).
Arguments Returns {A} a.
Arguments Raises {A} x.

Definition of_ctl {A} (c : ctl A) : result A :=
  match c with
  | Normal a => Returns a
  | Raised e => Raises (Ordinary e)
  end.

Definition action (A : Type) := world -> result A * world.

Definition ret {A} (a : A) : action A := fun w => (Returns a, w).

Definition bind {A B} (m : action A) (k : A -> action B) : action B :=
  fun w =>
    match m w with
    | (Returns a, w') => k a w'
    | (Raises x, w') => (Raises x, w')
    end.

Definition lift {A} (c : ctl A) : action A := fun w => (of_ctl c, w).

Declare Scope boundary_scope.
Notation "x <- m ;; k" := (bind m (fun x => k))
  (at level 61, m at next level, right associativity) : boundary_scope.
Notation "m ;;; k" := (bind m (fun _ => k))
  (at level 61, right associativity) : boundary_scope.
Local Open Scope boundary_scope.

(** What comes back from a POST: the response, and whether
    [response.json()] is cut short by an exception outside [Exception]
    (otherwise it does what [json] of the response says). *)
Record reply := {
  head : Response;
  json_interrupted : option (base_class * list pyval)
}.

(** [response.json()] *)
Definition decode (rp : reply) : result pyval :=
  match json_interrupted rp with
  | Some (c, args) => Raises (BaseOnly c args)
  | None => of_ctl (json (head rp))
  end.

(** ["Summarize" in v] *)
Definition contains_summarize (v : pyval) : ctl bool :=
  match v with
  | PStr s => Normal (contains (py "Summarize") s)
  | PList l =>
      Normal (existsb (fun x => match x with
                                | PStr s => PyStr.eqb s (py "Summarize")
                                | _ => false
                                end) l)
  | PDict d =>
      Normal (match PyVal.lookup d (py "Summarize") with
              | Some _ => true
              | None => false
              end)
  | _ => Raised (Exc TypeError
                   [PStr (py ("argument of type '" ++ PyVal.type_name v
                              ++ "' is not iterable"))])
  end.

(** [retry_count] as [range], [-] and the f-string use it: its integer
    value and its [str]. *)
Definition as_count (v : pyval) : ctl (Z * pystr) :=
  match v with
  | PInt n => Normal (n, str_int n)
  | PBool true => Normal (1, py "True")
  | PBool false => Normal (0, py "False")
  | _ => Raised (Exc TypeError
                   [PStr (py ("'" ++ PyVal.type_name v
                              ++ "' object cannot be interpreted as an integer"))])
  end.

Definition payload (user_prompt system_instruction max_tokens : pyval)
    (summarizing : bool) : pyval :=
  PDict
    [(py "contents",
      PList [PDict [(py "parts", PList [PDict [(py "text", user_prompt)]])]]);
     (py "systemInstruction",
      PDict [(py "parts",
              PList [PDict [(py "text", system_instruction)]])]);
     (py "generationConfig",
      PDict [(py "maxOutputTokens", max_tokens);
             (py "temperature",
              PFloat (if summarizing then (7 # 10)%Q else (9 # 10)%Q))])].

(** [try: body  except C1 as e: ...  except C2 as e: ...] where every class
    named by a clause derives from [Exception]: an exception outside
    [Exception] matches no clause and goes on to the caller. *)
Definition try_except {A} (body : action A)
    (handlers : list ((exc -> bool) * (exc -> action A))) : action A :=
  fun w =>
    match body w with
    | (Returns a, w') => (Returns a, w')
    | (Raises (Ordinary e), w') =>
        match find (fun h => fst h e) handlers with
        | Some h => snd h e w'
        | None => (Raises (Ordinary e), w')
        end
    | (Raises (BaseOnly c args), w') => (Raises (BaseOnly c args), w')
    end.

Definition st_error (m : message) : action unit :=
  fun w => (Returns tt, emit (EError m) w).

Definition time_sleep (seconds : Z) : action unit :=
  fun w => (Returns tt, emit (ESleep seconds) w).

Section Call.

(** The network: [requests.post] raises, or a reply comes back. *)
Variable net : nat -> Request -> raised + reply.
Variable cfg : config.

Definition requests_post (r : Request) : action reply :=
  fun w =>
    let w' := {| sent := S (sent w); log := log w ++ [EPost r] |} in
    match net (sent w) r with
    | inl x => (Raises x, w')
    | inr rp => (Returns rp, w')
    end.

Definition try_body (r : Request) : action (option pystr) :=
  response <- requests_post r ;;
  if status_code (head response) =? 403 then
    st_error msg_forbidden ;;;
    ret (Some [])
  else
    lift (raise_for_status (head response)) ;;;
    result <- (fun w => (decode response, w)) ;;
    text <- lift (extract_text result) ;;
    ret (Some text).

Definition iteration (r : Request) (retry_count : Z) (shown : pystr)
    (i : Z) : action (option pystr) :=
  try_except (try_body r)
    [ (is_RequestException,
       fun e =>
         if i <? retry_count - 1 then
           time_sleep (2 ^ i) ;;;
           ret None
         else
           st_error [Text (py "Final API call failed after "); Text shown;
                     Text (py " attempts: "); StrOf e] ;;;
           ret (Some []));
      (is_Exception,
       fun e =>
         st_error (msg_unexpected e) ;;;
         ret (Some [])) ].

Fixpoint for_loop (body : Z -> action (option pystr)) (indices : list Z)
  : action pystr :=
  match indices with
  | [] => ret []
  | i :: rest =>
      r <- body i ;;
      match r with
      | Some s => ret s
      | None => for_loop body rest
      end
  end.

(** Lines 26-79, for arguments of any kind. *)
Definition gemini_api_call
    (user_prompt system_instruction max_tokens retry_count : pyval)
  : action pystr :=
  summarizing <- lift (contains_summarize system_instruction) ;;
  let r := {| req_url := url cfg;
              req_headers := headers;
              req_data := payload user_prompt system_instruction max_tokens
                            summarizing |} in
  count <- lift (as_count retry_count) ;;
  for_loop (iteration r (fst count) (snd count)) (range (fst count)).

End Call.

(** A network of the first embedding, as a network of this one. *)
Definition of_net (net : nat -> Request -> exc + Response)
  : nat -> Request -> raised + reply :=
  fun n r =>
    match net n r with
    | inl e => inl (Ordinary e)
    | inr resp => inr {| head := resp; json_interrupted := None |}
    end.

Definition of_outcome {A} (o : ctl A * world) : result A * world :=
  (of_ctl (fst o), snd o).






End Boundary.

(** ** Properties *)

Lemma pystr_eqb_eq (a b : pystr) : PyStr.eqb a b = true <-> a = b.
Proof.
  unfold PyStr.eqb.
  destruct (list_eq_dec N.eq_dec a b); split; congruence.
Qed.

(** *** Strings *)

Example strip_example :
  strip ([9; 32; 160]%N ++ py "a b" ++ [10; 8232; 12288]%N) = py "a b".
Proof. reflexivity. Qed.

Example contains_is_case_sensitive :
  contains (py "Summarize") (py "to summarize a text") = false
  /\ contains (py "Summarize") (py "Summarize a text") = true.
Proof. split; reflexivity. Qed.

Example str_int_examples :
  str_int 3 = py "3" /\ str_int 0 = py "0" /\ str_int (-12) = py "-12".
Proof. repeat split; reflexivity. Qed.

Lemma lstrip_spec (s : pystr) :
  exists l, s = l ++ lstrip s /\ forallb isspace l = true
            /\ (forall c t, lstrip s = c :: t -> isspace c = false).
Proof.
  induction s as [|c s IH]; simpl.
  - exists []. repeat split; intros; discriminate.
  - destruct (isspace c) eqn:Hc.
    + destruct IH as (l & Hs & Hl & Hhd).
      exists (c :: l). simpl. rewrite Hc, Hl. repeat split; auto.
      now f_equal.
    + exists []. repeat split. intros c' t [= <- _]. exact Hc.
Qed.

(** [strip] removes a run of whitespace at each end, and nothing else: what
    is left neither starts nor ends with whitespace. *)
Lemma strip_spec (s : pystr) :
  exists l r,
    s = l ++ strip s ++ r
    /\ forallb isspace l = true /\ forallb isspace r = true
    /\ (forall c t, strip s = c :: t -> isspace c = false)
    /\ (forall c t, strip s = t ++ [c] -> isspace c = false).
Proof.
  unfold strip, rstrip.
  destruct (lstrip_spec s) as (l & Hs & Hl & Hhd).
  destruct (lstrip_spec (rev (lstrip s))) as (r & Hr & Hrs & Hlast).
  set (m := lstrip s) in *. set (k := lstrip (rev m)) in *.
  assert (Hm : m = rev k ++ rev r).
  { rewrite <- rev_app_distr, <- Hr. now rewrite rev_involutive. }
  exists l, (rev r). repeat split.
  - now rewrite <- Hm.
  - exact Hl.
  - rewrite forallb_forall in *. intros x Hx. apply Hrs.
    now apply in_rev.
  - intros c t Hk. destruct (rev k) as [|c' t'] eqn:Ek; [discriminate|].
    injection Hk as -> ->. apply (Hhd c (t ++ rev r)). now rewrite Hm.
  - intros c t Hk. apply (Hlast c (rev t)).
    rewrite <- (rev_involutive k), Hk, rev_app_distr. reflexivity.
Qed.

(** *** The loop indices *)

Lemma range_nonpos (n : Z) : n <= 0 -> range n = [].
Proof.
  intros H. unfold range.
  replace (Z.to_nat n) with 0%nat by lia. reflexivity.
Qed.

Lemma range_split (n : Z) (k : nat) :
  Z.of_nat k < n ->
  range n = map Z.of_nat (seq 0 k)
            ++ Z.of_nat k :: map Z.of_nat (seq (S k) (Z.to_nat n - S k)).
Proof.
  intros H. unfold range.
  replace (Z.to_nat n) with (k + S (Z.to_nat n - S k))%nat at 1 by lia.
  rewrite seq_app, map_app. simpl. reflexivity.
Qed.

(** *** One attempt *)

Section Client.

Variable net : nat -> Request -> exc + Response.
Variable cfg : config.

Lemma try_body_unfold (r : Request) (w : world) :
  try_body net r w =
  match net (sent w) r with
  | inl e => (Raised e, posted r w)
  | inr resp =>
      if status_code resp =? 403
      then (Normal (Some []), emit (EError msg_forbidden) (posted r w))
      else
        match ctl_bind (raise_for_status resp) (fun _ =>
              ctl_bind (json resp) extract_text) with
        | Raised e => (Raised e, posted r w)
        | Normal text => (Normal (Some text), posted r w)
        end
  end.
Proof.
  unfold try_body, bind, requests_post, posted.
  destruct (net (sent w) r) as [e|resp]; [reflexivity|].
  destruct (status_code resp =? 403); [reflexivity|].
  unfold lift.
  destruct (raise_for_status resp) as [[]|e]; simpl; [|reflexivity].
  destruct (json resp) as [result|e]; simpl; [|reflexivity].
  destruct (extract_text result); reflexivity.
Qed.

Lemma try_body_raised (r : Request) (w : world) (e : exc) :
  raised_by (net (sent w) r) = Some e ->
  try_body net r w = (Raised e, posted r w).
Proof.
  intros H. rewrite try_body_unfold. unfold raised_by in H.
  destruct (net (sent w) r) as [e'|resp]; [congruence|].
  destruct (status_code resp =? 403); [discriminate|].
  destruct (ctl_bind _ _); congruence.
Qed.

(** An attempt that raises a [RequestException] before the last index:
    sleep, and go on. *)
Lemma iteration_retry (r : Request) (retry_count i : Z) (w : world) (e : exc) :
  raised_by (net (sent w) r) = Some e ->
  is_RequestException e = true ->
  i < retry_count - 1 ->
  iteration net r retry_count i w
  = (Normal None, emit (ESleep (2 ^ i)) (posted r w)).
Proof.
  intros Hr He Hi. unfold iteration, try_except.
  rewrite (try_body_raised _ _ _ Hr). simpl. rewrite He. simpl.
  apply Z.ltb_lt in Hi. rewrite Hi. reflexivity.
Qed.

(** An attempt that raises a [RequestException] at the last index: report,
    and return the empty string. *)
Lemma iteration_final (r : Request) (retry_count i : Z) (w : world) (e : exc) :
  raised_by (net (sent w) r) = Some e ->
  is_RequestException e = true ->
  retry_count - 1 <= i ->
  iteration net r retry_count i w
  = (Normal (Some []),
     emit (EError (msg_final retry_count e)) (posted r w)).
Proof.
  intros Hr He Hi. unfold iteration, try_except.
  rewrite (try_body_raised _ _ _ Hr). simpl. rewrite He. simpl.
  apply Z.ltb_ge in Hi. rewrite Hi. reflexivity.
Qed.

(** An attempt that raises any other exception: report, and return the
    empty string, whatever the index. *)
Lemma iteration_unexpected (r : Request) (retry_count i : Z) (w : world)
    (e : exc) :
  raised_by (net (sent w) r) = Some e ->
  is_RequestException e = false ->
  iteration net r retry_count i w
  = (Normal (Some []), emit (EError (msg_unexpected e)) (posted r w)).
Proof.
  intros Hr He. unfold iteration, try_except.
  rewrite (try_body_raised _ _ _ Hr). simpl. rewrite He. reflexivity.
Qed.

(** No exception leaves an iteration; it adds to the log one POST of [r]
    and at most one sleep or report; and the string it returns, if any, is
    empty or the text extracted from the body of a response. *)
Lemma iteration_normal (r : Request) (retry_count i : Z) (w : world) :
  exists o w' evs,
    iteration net r retry_count i w = (Normal o, w')
    /\ log w' = log w ++ evs /\ Forall (api_event r) evs
    /\ forall s, o = Some s ->
         s = [] \/
         exists resp result,
           net (sent w) r = inr resp /\ json resp = Normal result
           /\ extract_text result = Normal s.
Proof.
  unfold iteration, try_except. rewrite try_body_unfold.
  assert (Hh : forall e, exists o w' ev,
    match find (fun h : (exc -> bool) * (exc -> M (option pystr)) => fst h e)
      [ (is_RequestException,
         fun e => if i <? retry_count - 1
                  then time_sleep (2 ^ i) ;;; ret None
                  else st_error (msg_final retry_count e) ;;; ret (Some []));
        (is_Exception,
         fun e => st_error (msg_unexpected e) ;;; ret (Some [])) ]
    with
    | Some h => snd h e (posted r w)
    | None => (Raised e, posted r w)
    end = (Normal o, w')
    /\ log w' = log w ++ [EPost r; ev] /\ api_event r ev
    /\ forall s, o = Some s -> s = []).
  { intros e. cbn [find fst snd]. destruct (is_RequestException e).
    - destruct (i <? retry_count - 1); eexists _, _, _;
        (split; [reflexivity|]); cbn [log emit posted];
        rewrite <- app_assoc; (split; [reflexivity|]);
        (split; [exact I|]); intros s [= <-]; reflexivity.
    - cbn [is_Exception]. eexists _, _, _.
      split; [reflexivity|]. cbn [log emit posted]. rewrite <- app_assoc.
      split; [reflexivity|]. split; [exact I|]. now intros s [= <-]. }
  assert (Hraise : forall e, exists o w' evs,
    match find (fun h : (exc -> bool) * (exc -> M (option pystr)) => fst h e)
      [ (is_RequestException,
         fun e => if i <? retry_count - 1
                  then time_sleep (2 ^ i) ;;; ret None
                  else st_error (msg_final retry_count e) ;;; ret (Some []));
        (is_Exception,
         fun e => st_error (msg_unexpected e) ;;; ret (Some [])) ]
    with
    | Some h => snd h e (posted r w)
    | None => (Raised e, posted r w)
    end = (Normal o, w')
    /\ log w' = log w ++ evs /\ Forall (api_event r) evs
    /\ forall s, o = Some s ->
         s = [] \/
         exists resp result,
           net (sent w) r = inr resp /\ json resp = Normal result
           /\ extract_text result = Normal s).
  { intros e. destruct (Hh e) as (o & w' & ev & -> & Hl & Hev & Ho).
    exists o, w', [EPost r; ev]. repeat split; auto.
    repeat constructor; auto. }
  destruct (net (sent w) r) as [e|resp] eqn:En; [apply Hraise|].
  destruct (status_code resp =? 403).
  { exists (Some []), (emit (EError msg_forbidden) (posted r w)),
      [EPost r; EError msg_forbidden].
    split; [reflexivity|]. cbn [log emit posted]. rewrite <- app_assoc.
    split; [reflexivity|]. split; [repeat constructor|].
    intros s [= <-]. now left. }
  destruct (raise_for_status resp) as [[]|e]; cbn [ctl_bind];
    [|apply Hraise].
  destruct (json resp) as [result|e] eqn:Ej; cbn [ctl_bind];
    [|apply Hraise].
  destruct (extract_text result) as [text|e] eqn:Et; [|apply Hraise].
  exists (Some text), (posted r w), [EPost r].
  split; [reflexivity|]. split; [reflexivity|].
  split; [repeat constructor|].
  intros s [= <-]. right. exists resp, result. auto.
Qed.

End Client.

(** *** The retry loop *)

Lemma after_backoff_0 (r : Request) (w : world) : after_backoff r 0 w = w.
Proof.
  destruct w as [n l]. unfold after_backoff, backoff. simpl.
  now rewrite Nat.add_0_r, app_nil_r.
Qed.

Lemma posts_of_backoff (r : Request) (i k : nat) :
  posts_of (backoff r i k) = repeat r k.
Proof.
  revert i. induction k as [|k IH]; intros i; [reflexivity|].
  unfold backoff in *. simpl. f_equal. apply IH.
Qed.

Lemma sleeps_of_backoff (r : Request) (i k : nat) :
  sleeps_of (backoff r i k) = map (fun j => 2 ^ Z.of_nat j) (seq i k).
Proof.
  revert i. induction k as [|k IH]; intros i; [reflexivity|].
  unfold backoff in *. simpl. f_equal. apply IH.
Qed.

Lemma errors_of_backoff (r : Request) (i k : nat) :
  errors_of (backoff r i k) = [].
Proof.
  revert i. induction k as [|k IH]; intros i; [reflexivity|].
  unfold backoff in *. simpl. apply IH.
Qed.

Lemma posts_of_app (a b : list event) :
  posts_of (a ++ b) = posts_of a ++ posts_of b.
Proof. apply flat_map_app. Qed.

Lemma sleeps_of_app (a b : list event) :
  sleeps_of (a ++ b) = sleeps_of a ++ sleeps_of b.
Proof. apply flat_map_app. Qed.

Lemma errors_of_app (a b : list event) :
  errors_of (a ++ b) = errors_of a ++ errors_of b.
Proof. apply flat_map_app. Qed.

Section Retry.

Variable net : nat -> Request -> exc + Response.
Variable cfg : config.
Variables user_prompt system_instruction : pystr.
Variables max_tokens retry_count : Z.

Let req := request cfg user_prompt system_instruction max_tokens.

Lemma loop_skip (k : nat) : forall (i : nat) (w : world) (rest : list Z),
  transient_until net cfg user_prompt system_instruction max_tokens k w ->
  Z.of_nat (i + k) <= retry_count - 1 ->
  for_loop (iteration net req retry_count)
    (map Z.of_nat (seq i k) ++ rest) w
  = for_loop (iteration net req retry_count) rest
      {| sent := sent w + k; log := log w ++ backoff req i k |}.
Proof.
  induction k as [|k IH]; intros i w rest Ht Hi.
  - destruct w as [n l]. simpl. unfold backoff. simpl.
    now rewrite Nat.add_0_r, app_nil_r.
  - destruct (Ht 0%nat ltac:(lia)) as (e & Hr & He).
    rewrite Nat.add_0_r in Hr.
    cbn [seq map app for_loop]. unfold bind at 1.
    rewrite (iteration_retry net req retry_count (Z.of_nat i) w e Hr He)
      by lia.
    rewrite IH.
    + f_equal. cbn [sent log emit posted]. unfold backoff.
      cbn [seq flat_map]. f_equal; [lia|].
      now rewrite <- !app_assoc.
    + intros j Hj. cbn [sent emit posted].
      destruct (Ht (S j) ltac:(lia)) as (e' & Hr' & He').
      exists e'. split; auto.
      now replace (S (sent w) + j)%nat with (sent w + S j)%nat by lia.
    + lia.
Qed.

(** After [k] retried attempts the call is at iteration [k], in the world
    [after_backoff req k w]. *)
Lemma gemini_api_call_at (k : nat) (w : world) :
  Z.of_nat k < retry_count ->
  transient_until net cfg user_prompt system_instruction max_tokens k w ->
  gemini_api_call net cfg user_prompt system_instruction max_tokens
    retry_count w
  = (r <- iteration net req retry_count (Z.of_nat k) ;;
     match r with
     | Some s => ret s
     | None =>
         for_loop (iteration net req retry_count)
           (map Z.of_nat (seq (S k) (Z.to_nat retry_count - S k)))
     end) (after_backoff req k w).
Proof.
  intros Hk Ht. unfold gemini_api_call. fold req.
  rewrite (range_split retry_count k Hk).
  rewrite loop_skip by (auto; lia). reflexivity.
Qed.

(** The loop never raises, adds only events of the client to the log, and
    returns the empty string or a text extracted from a response. *)
Lemma for_loop_normal (indices : list Z) : forall (w : world),
  exists s w' evs,
    for_loop (iteration net req retry_count) indices w = (Normal s, w')
    /\ log w' = log w ++ evs /\ Forall (api_event req) evs
    /\ (s = [] \/
        exists n resp result,
          net n req = inr resp /\ json resp = Normal result
          /\ extract_text result = Normal s).
Proof.
  induction indices as [|i rest IH]; intros w.
  - exists [], w, []. cbn. rewrite app_nil_r. auto.
  - cbn [for_loop]. unfold bind.
    destruct (iteration_normal net req retry_count i w)
      as (o & w1 & evs1 & -> & Hl1 & Hev1 & Ho).
    destruct o as [s|].
    + exists s, w1, evs1. repeat split; auto.
      destruct (Ho s eq_refl) as [->|(resp & result & H)]; [now left|].
      right. exists (sent w), resp, result. exact H.
    + destruct (IH w1) as (s & w2 & evs2 & -> & Hl2 & Hev2 & Hs).
      exists s, w2, (evs1 ++ evs2). repeat split; auto.
      * now rewrite Hl2, Hl1, app_assoc.
      * apply Forall_app. auto.
Qed.

End Retry.

(** *** Retry, backoff and the failure paths of the client *)

(** C1. When every attempt of a call raises a [RequestException]
    (connection error, timeout, the [HTTPError] of [raise_for_status] on a
    status other than 403), the POST is sent exactly [retry_count] times,
    a sleep of [2^i] seconds follows failed attempt [i] for every attempt
    but the last, and after the last attempt one error is reported, the
    text [Final API call failed after <retry_count> attempts: <last
    exception>], and the empty string returned. *)
Theorem gemini_api_call_retries_exhausted
    (net : nat -> Request -> exc + Response) (cfg : config)
    (user_prompt system_instruction : pystr) (max_tokens retry_count : Z)
    (w : world) (errs : nat -> exc) :
  let req := request cfg user_prompt system_instruction max_tokens in
  let n := Z.to_nat retry_count in
  let report :=
    [Text (py "Final API call failed after "); Text (str_int retry_count);
     Text (py " attempts: "); StrOf (errs (n - 1)%nat)] in
  0 < retry_count ->
  (forall i, (i < n)%nat ->
     raised_by (net (sent w + i)%nat req) = Some (errs i)
     /\ is_RequestException (errs i) = true) ->
  exists evs,
    gemini_api_call net cfg user_prompt system_instruction max_tokens
      retry_count w
    = (Normal [], {| sent := (sent w + n)%nat; log := log w ++ evs |})
    /\ evs = backoff req 0 (n - 1)%nat ++ [EPost req; EError report]
    /\ posts_of evs = repeat req n
    /\ sleeps_of evs = map (fun i => 2 ^ Z.of_nat i) (seq 0 (n - 1)%nat)
    /\ errors_of evs = [report].
Proof.
  intros req n report Hpos Hall.
  assert (Hn : (0 < n)%nat) by (subst n; lia).
  eexists. split; [|split; [reflexivity|]].
  - rewrite (gemini_api_call_at net cfg user_prompt system_instruction
               max_tokens retry_count (n - 1) w).
    + fold req. unfold bind.
      destruct (Hall (n - 1)%nat ltac:(lia)) as [Hr He].
      rewrite (iteration_final net req retry_count _ _ (errs (n - 1)%nat));
        auto; [|subst n; lia].
      unfold ret, emit, posted, after_backoff. cbn [sent log].
      f_equal. f_equal.
      * lia.
      * now rewrite <- !app_assoc.
    + subst n. lia.
    + intros j Hj. exists (errs j). apply Hall. lia.
  - rewrite posts_of_app, sleeps_of_app, errors_of_app.
    rewrite posts_of_backoff, sleeps_of_backoff, errors_of_backoff.
    cbn. rewrite app_nil_r. repeat split.
    replace n with (n - 1 + 1)%nat at 2 by lia.
    now rewrite repeat_app.
Qed.

(** C2. When the response to the first attempt has status 403, exactly one
    POST is made, the error about the missing or invalid API key is
    reported, the empty string is returned, and there is no sleep. *)
Theorem gemini_api_call_forbidden
    (net : nat -> Request -> exc + Response) (cfg : config)
    (user_prompt system_instruction : pystr) (max_tokens retry_count : Z)
    (w : world) (resp : Response) :
  let req := request cfg user_prompt system_instruction max_tokens in
  let report :=
    [Text (py "API Error (403 Forbidden): The API key is missing or invalid. If running locally, please ensure API_KEY is set in the script.")] in
  0 < retry_count ->
  net (sent w) req = inr resp ->
  status_code resp = 403 ->
  gemini_api_call net cfg user_prompt system_instruction max_tokens
    retry_count w
  = (Normal [],
     {| sent := S (sent w); log := log w ++ [EPost req; EError report] |}).
Proof.
  intros req report Hpos Hnet Hst.
  rewrite (gemini_api_call_at net cfg user_prompt system_instruction
             max_tokens retry_count 0 w); [|lia|intros j Hj; lia].
  rewrite after_backoff_0. fold req. unfold bind, iteration, try_except.
  rewrite try_body_unfold, Hnet, Hst. cbn [Z.eqb Pos.eqb].
  unfold ret, emit, posted. cbn [sent log].
  now rewrite <- app_assoc.
Qed.

(** C9. With [retry_count <= 0] the loop body never runs: no request, no
    sleep, no report, and the empty string is returned. *)
Theorem gemini_api_call_no_attempts
    (net : nat -> Request -> exc + Response) (cfg : config)
    (user_prompt system_instruction : pystr) (max_tokens retry_count : Z)
    (w : world) :
  retry_count <= 0 ->
  gemini_api_call net cfg user_prompt system_instruction max_tokens
    retry_count w = (Normal [], w).
Proof.
  intros H. unfold gemini_api_call. now rewrite range_nonpos.
Qed.

(** An attempt that raises an exception outside the [RequestException]
    family ends the call. *)
Lemma unexpected_ends_call
    (net : nat -> Request -> exc + Response) (cfg : config)
    (user_prompt system_instruction : pystr) (max_tokens retry_count : Z)
    (w : world) (k : nat) (e : exc) :
  let req := request cfg user_prompt system_instruction max_tokens in
  Z.of_nat k < retry_count ->
  transient_until net cfg user_prompt system_instruction max_tokens k w ->
  raised_by (net (sent w + k)%nat req) = Some e ->
  is_RequestException e = false ->
  gemini_api_call net cfg user_prompt system_instruction max_tokens
    retry_count w
  = (Normal [],
     {| sent := (sent w + S k)%nat;
        log := log w ++ backoff req 0 k
                     ++ [EPost req; EError (msg_unexpected e)] |}).
Proof.
  intros req Hk Ht Hr He.
  rewrite (gemini_api_call_at net cfg user_prompt system_instruction
             max_tokens retry_count k w Hk Ht).
  fold req. unfold bind.
  rewrite (iteration_unexpected net req retry_count _ _ e); auto.
  unfold ret, emit, posted, after_backoff. cbn [sent log].
      f_equal. f_equal.
  - lia.
  - now rewrite <- !app_assoc.
Qed.

(** C10. An exception that is not a [RequestException] is never retried:
    at whatever attempt it is raised, it is reported, with the text [An
    unexpected error occurred during API processing: <the exception>], and
    the empty string returned at once, with no sleep after it and no
    further POST, however many attempts remain. *)
Theorem gemini_api_call_unexpected_not_retried
    (net : nat -> Request -> exc + Response) (cfg : config)
    (user_prompt system_instruction : pystr) (max_tokens retry_count : Z)
    (w : world) (k : nat) (e : exc) :
  let req := request cfg user_prompt system_instruction max_tokens in
  let report :=
    [Text (py "An unexpected error occurred during API processing: ");
     StrOf e] in
  Z.of_nat k < retry_count ->
  transient_until net cfg user_prompt system_instruction max_tokens k w ->
  raised_by (net (sent w + k)%nat req) = Some e ->
  is_RequestException e = false ->
  exists evs,
    gemini_api_call net cfg user_prompt system_instruction max_tokens
      retry_count w
    = (Normal [], {| sent := (sent w + S k)%nat; log := log w ++ evs |})
    /\ evs = backoff req 0 k ++ [EPost req; EError report]
    /\ List.length (posts_of evs) = S k
    /\ sleeps_of evs = map (fun i => 2 ^ Z.of_nat i) (seq 0 k)
    /\ errors_of evs = [report].
Proof.
  intros req report Hk Ht Hr He. eexists. split; [|split; [reflexivity|]].
  - now apply unexpected_ends_call.
  - rewrite posts_of_app, sleeps_of_app, errors_of_app.
    rewrite posts_of_backoff, sleeps_of_backoff, errors_of_backoff.
    cbn. rewrite app_nil_r, length_app, repeat_length. cbn.
    repeat split. lia.
Qed.

(** *** Extraction of the generated text *)

Ltac break_match :=
  match goal with
  | |- context [match ?x with _ => _ end] => destruct x eqn:?
  | H : context [match ?x with _ => _ end] |- _ => destruct x eqn:?
  end.

(** What the extraction of lines 64-65 returns when it returns: the trimmed
    text at the path, or the empty string when there is no text there. *)
Lemma extract_text_normal (result : pyval) (s : pystr) :
  extract_text result = Normal s ->
  s = match text_at_path result with
      | Some x => strip x
      | None => []
      end.
Proof.
  unfold extract_text, text_at_path, PyVal.get, PyVal.index0, PyVal.strip.
  intros H.
  repeat (break_match; cbn [ctl_bind PyVal.lookup] in *; subst;
          try discriminate; try congruence;
          try (injection H as <-; reflexivity)).
Qed.

(** With a text at the path, the extraction returns it trimmed. *)
Lemma extract_text_at_path (result : pyval) (x : pystr) :
  text_at_path result = Some x ->
  extract_text result = Normal (strip x).
Proof.
  unfold extract_text, text_at_path, PyVal.get, PyVal.index0, PyVal.strip.
  intros H.
  repeat (break_match; cbn [ctl_bind PyVal.lookup] in *; subst;
          try discriminate; try congruence).
Qed.

(** The extraction never raises a [RequestException]. *)
Lemma extract_text_raised (result : pyval) (e : exc) :
  extract_text result = Raised e -> is_RequestException e = false.
Proof.
  unfold extract_text, PyVal.get, PyVal.index0, PyVal.strip,
    PyVal.no_attribute.
  intros H.
  repeat (break_match; cbn [ctl_bind PyVal.lookup] in *; subst;
          try discriminate; try (injection H as <-; reflexivity)).
Qed.

(** A body with an empty [candidates] list makes the extraction raise an
    [IndexError]. *)
Lemma extract_text_empty_candidates (d : list (pystr * pyval)) :
  PyVal.lookup d (py "candidates") = Some (PList []) ->
  extract_text (PDict d)
  = Raised (Exc IndexError [PStr (py "list index out of range")]).
Proof.
  intros H. unfold extract_text, PyVal.get. now rewrite H.
Qed.

Lemma raise_for_status_2xx (resp : Response) :
  200 <= status_code resp < 300 ->
  (status_code resp =? 403) = false /\ raise_for_status resp = Normal tt.
Proof.
  intros H. split; [apply Z.eqb_neq; lia|].
  unfold raise_for_status.
  replace (400 <=? status_code resp) with false
    by (symmetry; apply Z.leb_gt; lia).
  replace (500 <=? status_code resp) with false
    by (symmetry; apply Z.leb_gt; lia).
  reflexivity.
Qed.

(** An attempt answered by a 2xx response with a decodable body whose text
    is extracted: the call returns that text. *)
Lemma iteration_success (net : nat -> Request -> exc + Response)
    (r : Request) (retry_count i : Z) (w : world) (resp : Response)
    (result : pyval) (s : pystr) :
  net (sent w) r = inr resp ->
  200 <= status_code resp < 300 ->
  json resp = Normal result ->
  extract_text result = Normal s ->
  iteration net r retry_count i w = (Normal (Some s), posted r w).
Proof.
  intros Hn Hs Hj He. destruct (raise_for_status_2xx resp Hs) as [H403 Hok].
  unfold iteration, try_except.
  now rewrite try_body_unfold, Hn, H403, Hok, Hj; cbn [ctl_bind]; rewrite He.
Qed.

Lemma raised_by_extraction (o : exc + Response) (resp : Response)
    (result : pyval) (e : exc) :
  o = inr resp ->
  200 <= status_code resp < 300 ->
  json resp = Normal result ->
  extract_text result = Raised e ->
  raised_by o = Some e.
Proof.
  intros -> Hs Hj He. destruct (raise_for_status_2xx resp Hs) as [H403 Hok].
  unfold raised_by.
  now rewrite H403, Hok, Hj; cbn [ctl_bind]; rewrite He.
Qed.

(** C6. For a 2xx response whose body has a text [x] at
    [candidates[0].content.parts[0].text], the call returns [x] trimmed of
    leading and trailing whitespace; for a 2xx response whose [candidates]
    list is empty, or whose body has no text at that path, it returns the
    empty string and does not raise. *)
Theorem gemini_api_call_extraction
    (net : nat -> Request -> exc + Response) (cfg : config)
    (user_prompt system_instruction : pystr) (max_tokens retry_count : Z)
    (w : world) (k : nat) (resp : Response) (result : pyval) :
  let req := request cfg user_prompt system_instruction max_tokens in
  let call := gemini_api_call net cfg user_prompt system_instruction
                max_tokens retry_count w in
  Z.of_nat k < retry_count ->
  transient_until net cfg user_prompt system_instruction max_tokens k w ->
  net (sent w + k)%nat req = inr resp ->
  200 <= status_code resp < 300 ->
  json resp = Normal result ->
  (forall x, text_at_path result = Some x ->
     call = (Normal (strip x),
             {| sent := (sent w + S k)%nat;
                log := log w ++ backoff req 0 k ++ [EPost req] |})
     /\ exists l r,
          x = l ++ strip x ++ r
          /\ forallb isspace l = true /\ forallb isspace r = true
          /\ (forall c t, strip x = c :: t -> isspace c = false)
          /\ (forall c t, strip x = t ++ [c] -> isspace c = false))
  /\ (forall d, result = PDict d ->
        PyVal.lookup d (py "candidates") = Some (PList []) ->
        call = (Normal [],
                {| sent := (sent w + S k)%nat;
                   log := log w ++ backoff req 0 k
                          ++ [EPost req;
                              EError (msg_unexpected
                                (Exc IndexError
                                   [PStr (py "list index out of range")]))]
                |}))
  /\ (text_at_path result = None ->
        exists tail,
          call = (Normal [],
                  {| sent := (sent w + S k)%nat;
                     log := log w ++ backoff req 0 k ++ EPost req :: tail |})
          /\ (tail = [] \/ exists e, tail = [EError (msg_unexpected e)])).
Proof.
  intros req call Hk Ht Hnet Hst Hj.
  assert (Hcall : call
    = (r <- iteration net req retry_count (Z.of_nat k) ;;
       match r with
       | Some s => ret s
       | None =>
           for_loop (iteration net req retry_count)
             (map Z.of_nat (seq (S k) (Z.to_nat retry_count - S k)))
       end) (after_backoff req k w)).
  { apply gemini_api_call_at; assumption. }
  assert (Hok : forall s, extract_text result = Normal s ->
    call = (Normal s, {| sent := (sent w + S k)%nat;
                         log := log w ++ backoff req 0 k ++ [EPost req] |})).
  { intros s He. rewrite Hcall. unfold bind.
    rewrite (iteration_success net req retry_count _ _ resp result s);
      auto.
    unfold ret, posted, after_backoff. cbn [sent log]. f_equal. f_equal.
    - lia.
    - now rewrite <- app_assoc. }
  assert (Hbad : forall e, extract_text result = Raised e ->
    call = (Normal [],
            {| sent := (sent w + S k)%nat;
               log := log w ++ backoff req 0 k
                      ++ [EPost req; EError (msg_unexpected e)] |})).
  { intros e He.
    apply (unexpected_ends_call net cfg user_prompt
             system_instruction max_tokens retry_count w k e); auto.
    - apply (raised_by_extraction _ resp result e); auto.
    - apply (extract_text_raised result e He). }
  split; [|split].
  - intros x Hx. split; [|apply strip_spec].
    apply Hok. now apply extract_text_at_path.
  - intros d -> Hd. apply Hbad. now apply extract_text_empty_candidates.
  - intros Hnone. destruct (extract_text result) as [s|e] eqn:He.
    + exists []. split; [|now left].
      pose proof (extract_text_normal result s He) as Hs.
      rewrite Hnone in Hs. subst s. now apply Hok.
    + exists [EError (msg_unexpected e)]. split; [|right; now exists e].
      now apply Hbad.
Qed.

(** *** What the requests of a call carry *)

Lemma posts_of_api_events (r : Request) (evs : list event) :
  Forall (api_event r) evs -> Forall (eq r) (posts_of evs).
Proof.
  induction 1 as [|e evs He _ IH]; [constructor|].
  destruct e; cbn in *; try assumption; try contradiction.
  constructor; auto.
Qed.

Lemma summarize_calls_api_events (r : Request) (evs : list event) :
  Forall (api_event r) evs -> summarize_calls evs = [].
Proof.
  induction 1 as [|e evs He _ IH]; [reflexivity|].
  destruct e; cbn in *; try assumption; contradiction.
Qed.

(** Every call of the client returns normally, and its POSTs all carry the
    request built from its arguments. *)
Lemma gemini_api_call_events
    (net : nat -> Request -> exc + Response) (cfg : config)
    (user_prompt system_instruction : pystr) (max_tokens retry_count : Z)
    (w : world) :
  exists s w' evs,
    gemini_api_call net cfg user_prompt system_instruction max_tokens
      retry_count w = (Normal s, w')
    /\ log w' = log w ++ evs
    /\ Forall (api_event
                 (request cfg user_prompt system_instruction max_tokens)) evs.
Proof.
  destruct (for_loop_normal net cfg user_prompt system_instruction
              max_tokens retry_count (range retry_count) w)
    as (s & w' & evs & H & Hl & Hev & _).
  exists s, w', evs. auto.
Qed.

Lemma temperature_of_request (cfg : config) (up si : pystr) (mt : Z) :
  temperature_of (request cfg up si mt) = Some (temperature si).
Proof. reflexivity. Qed.

Lemma max_output_tokens_of_request (cfg : config) (up si : pystr) (mt : Z) :
  max_output_tokens_of (request cfg up si mt) = Some mt.
Proof. reflexivity. Qed.

(** *** The two stages *)

Lemma max_tokens_map_label (c : length_category) :
  PyVal.getitem max_tokens_map (label c) = Normal (budget c).
Proof. destruct c; reflexivity. Qed.

Lemma max_tokens_map_other (length : pystr) :
  (forall c, length <> label c) ->
  PyVal.getitem max_tokens_map length = Raised (Exc KeyError [PStr length]).
Proof.
  intros H. unfold PyVal.getitem, max_tokens_map. cbn [PyVal.lookup].
  destruct (PyStr.eqb (py "Short (1-2 paragraphs)") length) eqn:E1;
    [apply pystr_eqb_eq in E1; now destruct (H Short)|].
  destruct (PyStr.eqb (py "Medium (3-5 paragraphs)") length) eqn:E2;
    [apply pystr_eqb_eq in E2; now destruct (H Medium)|].
  destruct (PyStr.eqb (py "Long (detailed explanation)") length) eqn:E3;
    [apply pystr_eqb_eq in E3; now destruct (H Long)|].
  reflexivity.
Qed.

(** Stage 1 returns normally; it logs its entry and then only events of
    its one call of the client. *)
Lemma generate_paper_content_events
    (net : nat -> Request -> exc + Response) (cfg : config)
    (title : pystr) (w : world) :
  exists s w' evs,
    generate_paper_content net cfg title w = (Normal s, w')
    /\ log w' = log w ++ ECallGenerate title :: evs
    /\ Forall (api_event (request cfg (generation_user_query title)
                            generation_system_prompt 600)) evs.
Proof.
  unfold generate_paper_content.
  destruct (gemini_api_call_events net cfg (generation_user_query title)
              generation_system_prompt 600 3 (emit (ECallGenerate title) w))
    as (s & w' & evs & -> & Hl & Hev).
  exists s, w', evs. repeat split; auto.
  rewrite Hl. cbn [log emit]. now rewrite <- app_assoc.
Qed.

(** Stage 2 logs its entry and then only events of the client, whether it
    returns or raises at the table lookup. *)
Lemma summarize_content_events
    (net : nat -> Request -> exc + Response) (cfg : config)
    (content title style length : pystr) (w : world) :
  exists r w' evs mt,
    summarize_content net cfg content title style length w = (r, w')
    /\ log w' = log w ++ ECallSummarize content title style length :: evs
    /\ Forall (api_event
                 (request cfg (summary_user_query content title style length)
                    summary_system_prompt mt)) evs.
Proof.
  unfold summarize_content, bind, lift.
  destruct (PyVal.getitem max_tokens_map length) as [v|e].
  - destruct (gemini_api_call_events net cfg
                (summary_user_query content title style length)
                summary_system_prompt v 3
                (emit (ECallSummarize content title style length) w))
      as (s & w' & evs & -> & Hl & Hev).
    exists (Normal s), w', evs, v. repeat split; auto.
    rewrite Hl. cbn [log emit]. now rewrite <- app_assoc.
  - eexists _, _, [], 0. repeat split; auto.
Qed.

(** C3, as the code has it: the instruction of Stage 2 does not contain
    [Summarize] with a capital letter, so the test of line 37 fails for it
    and every request of [summarize_content] carries temperature 0.9, the
    value of Stage 1, never the 0.7 the comment on that line announces for
    summaries. *)
Theorem summarize_content_temperature
    (net : nat -> Request -> exc + Response) (cfg : config)
    (content title style length : pystr) (w : world) :
  contains (py "Summarize") summary_system_prompt = false
  /\ contains (py "summarize") summary_system_prompt = true
  /\ (exists evs,
        log (snd (summarize_content net cfg content title style length w))
        = log w ++ evs
        /\ Forall (fun r => temperature_of r = Some (9 # 10)%Q)
             (posts_of evs))
  /\ (exists evs,
        log (snd (generate_paper_content net cfg title w)) = log w ++ evs
        /\ Forall (fun r => temperature_of r = Some (9 # 10)%Q)
             (posts_of evs))
  /\ map temperature_of
       (posts_of (log (snd (summarize_content (net_ok (py "A summary."))
                              module_config (py "An abstract.")
                              (py "Attention Is All You Need")
                              (py "Technical") (label Short) world0))))
     = [Some (9 # 10)%Q].
Proof.
  split; [vm_compute; reflexivity|].
  split; [vm_compute; reflexivity|].
  split; [|split; [|vm_compute; reflexivity]].
  - destruct (summarize_content_events net cfg content title style length w)
      as (r & w' & evs & mt & -> & Hl & Hev).
    cbn [snd]. eexists. split; [exact Hl|].
    cbn [posts_of flat_map app]. apply posts_of_api_events in Hev.
    eapply Forall_impl; [|exact Hev]. intros rq <-.
    rewrite temperature_of_request. vm_compute. reflexivity.
  - destruct (generate_paper_content_events net cfg title w)
      as (s & w' & evs & -> & Hl & Hev).
    cbn [snd]. eexists. split; [exact Hl|].
    cbn [posts_of flat_map app]. apply posts_of_api_events in Hev.
    eapply Forall_impl; [|exact Hev]. intros rq <-.
    rewrite temperature_of_request. vm_compute. reflexivity.
Qed.

(** C5. The token ceiling of [summarize_content] depends on the length
    alone: 150, 300 and 450 for the short, medium and long labels; with any
    other length the lookup raises a [KeyError] before any request is
    made, and no default ceiling is used. *)
Theorem summarize_content_token_budget
    (net : nat -> Request -> exc + Response) (cfg : config)
    (content title style : pystr) (w : world) :
  (forall c,
     summarize_content net cfg content title style (label c) w
     = gemini_api_call net cfg
         (summary_user_query content title style (label c))
         summary_system_prompt (budget c) 3
         (emit (ECallSummarize content title style (label c)) w)
     /\ exists evs,
          log (snd (summarize_content net cfg content title style
                      (label c) w)) = log w ++ evs
          /\ Forall (fun r => max_output_tokens_of r = Some (budget c))
               (posts_of evs))
  /\ (forall length,
        (forall c, length <> label c) ->
        summarize_content net cfg content title style length w
        = (Raised (Exc KeyError [PStr length]),
           emit (ECallSummarize content title style length) w)).
Proof.
  split.
  - intros c.
    assert (Hrun : summarize_content net cfg content title style (label c) w
      = gemini_api_call net cfg
          (summary_user_query content title style (label c))
          summary_system_prompt (budget c) 3
          (emit (ECallSummarize content title style (label c)) w)).
    { unfold summarize_content, bind, lift.
      now rewrite max_tokens_map_label. }
    split; [exact Hrun|]. rewrite Hrun.
    destruct (gemini_api_call_events net cfg
                (summary_user_query content title style (label c))
                summary_system_prompt (budget c) 3
                (emit (ECallSummarize content title style (label c)) w))
      as (s & w' & evs & -> & Hl & Hev).
    cbn [snd]. eexists. split.
    + rewrite Hl. cbn [log emit]. now rewrite <- app_assoc.
    + cbn [posts_of flat_map app]. apply posts_of_api_events in Hev.
      eapply Forall_impl; [|exact Hev]. intros rq <-.
      apply max_output_tokens_of_request.
  - intros length H. unfold summarize_content, bind, lift.
    now rewrite max_tokens_map_other.
Qed.

(** *** The pipeline *)

Lemma summarize_calls_app (a b : list event) :
  summarize_calls (a ++ b) = summarize_calls a ++ summarize_calls b.
Proof. apply flat_map_app. Qed.

Lemma log_emit (e : event) (w : world) : log (emit e w) = log w ++ [e].
Proof. reflexivity. Qed.

(** The branch of Stage 2 calls [summarize_content] once, with the abstract
    it was given. *)
Lemma stage2_calls (net : nat -> Request -> exc + Response) (cfg : config)
    (abstract title style length : pystr) (w : world) :
  exists evs,
    log (snd (stage2 net cfg abstract title style length w)) = log w ++ evs
    /\ summarize_calls evs = [(abstract, title, style, length)].
Proof.
  unfold stage2.
  destruct (summarize_content_events net cfg abstract title style length
              (emit (ESpinner (msg_spinner2 cfg))
                 (emit (EMarkdown (msg_style_length style length))
                    (emit (ESubheader (msg_subheader title)) w))))
    as (r & w' & evs & mt & -> & Hl & Hev).
  apply (summarize_calls_api_events _ evs) in Hev.
  rewrite !log_emit in Hl.
  destruct r as [final_summary|e]; cbn [snd].
  - destruct (truthy final_summary); eexists; rewrite !log_emit, Hl;
      rewrite <- !app_assoc; (split; [reflexivity|]);
      rewrite !summarize_calls_app; cbn [app];
      change (ECallSummarize abstract title style length :: evs)
        with ([ECallSummarize abstract title style length] ++ evs);
      rewrite !summarize_calls_app, Hev; reflexivity.
  - eexists. rewrite !log_emit, Hl. rewrite <- !app_assoc.
    split; [reflexivity|].
    rewrite !summarize_calls_app; cbn [app];
      change (ECallSummarize abstract title style length :: evs)
        with ([ECallSummarize abstract title style length] ++ evs);
      rewrite !summarize_calls_app, Hev; reflexivity.
Qed.

(** C4. In a run of the handler with a title: when Stage 1 returns the
    empty string, [summarize_content] is not called and the failure of
    Stage 1 is reported, with the text [Stage 1 failed to generate content
    from the **<model>** API. ...], as the last thing the run does; when
    Stage 1 returns a non-empty abstract, [summarize_content] is called
    exactly once, with that abstract as its content. *)
Theorem stage2_gated_on_stage1
    (net : nat -> Request -> exc + Response) (cfg : config)
    (title style length : pystr) (w w1 : world) (abstract : pystr) :
  let report :=
    [Text (py "Stage 1 failed to generate content from the **");
     Text (MODEL_ID cfg);
     Text (py "** API. This usually indicates an API key or connectivity issue.")] in
  title <> [] ->
  generate_paper_content net cfg title
    (emit (ESpinner (msg_spinner1 cfg title)) w) = (Normal abstract, w1) ->
  exists evs,
    log (snd (on_generate_and_summarize net cfg title style length w))
    = log w ++ evs
    /\ (abstract = [] ->
        summarize_calls evs = []
        /\ on_generate_and_summarize net cfg title style length w
           = (Completed, emit (EError report) w1))
    /\ (abstract <> [] ->
        summarize_calls evs = [(abstract, title, style, length)]).
Proof.
  intros report Htitle Hgen. unfold on_generate_and_summarize.
  destruct title as [|c title]; [congruence|]. cbn [truthy negb].
  rewrite Hgen.
  destruct (generate_paper_content_events net cfg (c :: title)
              (emit (ESpinner (msg_spinner1 cfg (c :: title))) w))
    as (s & w' & evs1 & Hrun & Hl & Hev).
  rewrite Hgen in Hrun. injection Hrun as <- <-.
  apply (summarize_calls_api_events _ evs1) in Hev.
  rewrite log_emit, <- app_assoc in Hl.
  assert (Hpre : summarize_calls
            ([ESpinner (msg_spinner1 cfg (c :: title))]
             ++ ECallGenerate (c :: title) :: evs1) = []).
  { cbn [app summarize_calls flat_map]. exact Hev. }
  destruct abstract as [|a abstract]; cbn [truthy negb].
  - eexists. cbn [snd]. rewrite log_emit, Hl, <- app_assoc.
    split; [reflexivity|]. split; [|congruence]. intros _.
    split; [|reflexivity].
    now rewrite summarize_calls_app, Hpre.
  - destruct (stage2_calls net cfg (a :: abstract) (c :: title) style
                length w1) as (evs2 & Hl2 & Hc2).
    eexists. rewrite Hl2, Hl, <- app_assoc.
    split; [reflexivity|]. split; [congruence|]. intros _.
    now rewrite summarize_calls_app, Hpre, Hc2.
Qed.

(** *** The theorems at sample inputs *)

(** Three 503 responses in a row: three POSTs, sleeps of 1 and 2 seconds,
    one report with the [HTTPError] of the last one. *)
Lemma gemini_api_call_retries_exhausted_witness :
  exists evs,
    gemini_api_call (net_status 503) module_config (py "prompt")
      (py "instruction") 600 3 world0
    = (Normal [], {| sent := 3; log := evs |})
    /\ evs = backoff (request module_config (py "prompt")
                        (py "instruction") 600) 0 2
             ++ [EPost (request module_config (py "prompt")
                          (py "instruction") 600);
                 EError [Text (py "Final API call failed after ");
                         Text (py "3"); Text (py " attempts: ");
                         StrOf unavailable]]
    /\ posts_of evs
       = repeat (request module_config (py "prompt") (py "instruction") 600)
           3
    /\ sleeps_of evs = [1; 2]
    /\ errors_of evs
       = [[Text (py "Final API call failed after "); Text (py "3");
           Text (py " attempts: "); StrOf unavailable]].
Proof.
  apply (gemini_api_call_retries_exhausted (net_status 503)
           module_config (py "prompt") (py "instruction") 600 3 world0
           (fun _ => unavailable)).
  - reflexivity.
  - intros i Hi. split; reflexivity.
Defined.

Lemma gemini_api_call_forbidden_witness :
  gemini_api_call (net_status 403) module_config (py "prompt")
    (py "instruction") 600 3 world0
  = (Normal [],
     {| sent := 1;
        log := [EPost (request module_config (py "prompt")
                         (py "instruction") 600);
                EError [Text (py "API Error (403 Forbidden): The API key is missing or invalid. If running locally, please ensure API_KEY is set in the script.")]] |}).
Proof.
  apply (gemini_api_call_forbidden (net_status 403) module_config
           (py "prompt") (py "instruction") 600 3 world0
           (response_with 403 (Normal PNone))); reflexivity.
Defined.

Lemma gemini_api_call_extraction_witness :
  gemini_api_call (net_ok (py "  An abstract.  ")) module_config
    (py "prompt") (py "instruction") 600 3 world0
  = (Normal (py "An abstract."),
     {| sent := 1;
        log := [EPost (request module_config (py "prompt")
                         (py "instruction") 600)] |}).
Proof.
  apply (fun Hk Ht Hn Hs Hj =>
           proj1 (proj1 (gemini_api_call_extraction
                    (net_ok (py "  An abstract.  ")) module_config
                    (py "prompt") (py "instruction") 600 3 world0 0
                    (response_with 200
                       (Normal (body_with_text (py "  An abstract.  "))))
                    (body_with_text (py "  An abstract.  "))
                    Hk Ht Hn Hs Hj)
                  (py "  An abstract.  ") eq_refl)).
  - reflexivity.
  - intros j Hj. destruct (Nat.nlt_0_r j Hj).
  - reflexivity.
  - split; [intros H; discriminate H | reflexivity].
  - reflexivity.
Defined.

Lemma gemini_api_call_no_attempts_witness :
  gemini_api_call (net_ok (py "text")) module_config (py "prompt")
    (py "instruction") 600 0 world0 = (Normal [], world0).
Proof.
  apply (gemini_api_call_no_attempts (net_ok (py "text")) module_config
           (py "prompt") (py "instruction") 600 0 world0).
  intros H. discriminate H.
Defined.

(** A time-out, then a 200 whose [candidates] list is empty: the
    [IndexError] of the extraction ends the call at the second attempt, with
    one attempt left. *)
Lemma gemini_api_call_unexpected_not_retried_witness :
  exists evs,
    gemini_api_call
      (net_seq [inl timed_out] (inr empty_candidates_response))
      module_config (py "prompt") (py "instruction") 600 3 world0
    = (Normal [], {| sent := 2; log := evs |})
    /\ evs = [EPost (request module_config (py "prompt")
                       (py "instruction") 600);
              ESleep 1;
              EPost (request module_config (py "prompt")
                       (py "instruction") 600);
              EError [Text (py "An unexpected error occurred during API processing: ");
                      StrOf index_error]]
    /\ List.length (posts_of evs) = 2%nat
    /\ sleeps_of evs = [1]
    /\ errors_of evs
       = [[Text (py "An unexpected error occurred during API processing: ");
           StrOf index_error]].
Proof.
  apply (gemini_api_call_unexpected_not_retried
           (net_seq [inl timed_out] (inr empty_candidates_response))
           module_config (py "prompt") (py "instruction") 600 3 world0 1
           index_error).
  - reflexivity.
  - intros j Hj. exists timed_out.
    destruct j as [|j]; [split; reflexivity|].
    apply Nat.succ_lt_mono in Hj. destruct (Nat.nlt_0_r j Hj).
  - reflexivity.
  - reflexivity.
Defined.

Lemma summarize_content_token_budget_witness :
  summarize_content (net_ok (py "A summary.")) module_config
    (py "An abstract.") (py "Attention Is All You Need") (py "Technical")
    (py "Tiny") world0
  = (Raised (Exc KeyError [PStr (py "Tiny")]),
     emit (ECallSummarize (py "An abstract.")
             (py "Attention Is All You Need") (py "Technical") (py "Tiny"))
       world0).
Proof.
  apply (proj2 (summarize_content_token_budget (net_ok (py "A summary."))
                  module_config (py "An abstract.")
                  (py "Attention Is All You Need") (py "Technical") world0)).
  intros [] H; discriminate H.
Defined.

(** Both branches: an abstract at the first POST, and three 503 responses
    that leave Stage 1 with nothing. *)
Lemma stage2_gated_on_stage1_witness :
  (exists evs,
     log (snd (on_generate_and_summarize (net_ok (py "An abstract."))
                 module_config (py "Attention Is All You Need")
                 (py "Technical") (label Short) world0)) = evs
     /\ summarize_calls evs
        = [(py "An abstract.", py "Attention Is All You Need",
            py "Technical", label Short)])
  /\ (summarize_calls
        (log (snd (on_generate_and_summarize (net_status 503)
                     module_config (py "Attention Is All You Need")
                     (py "Technical") (label Short) world0))) = []
      /\ on_generate_and_summarize (net_status 503) module_config
           (py "Attention Is All You Need") (py "Technical") (label Short)
           world0
         = (Completed,
            emit (EError
                    [Text (py "Stage 1 failed to generate content from the **");
                     Text (py "Gemini 2.0 Flash");
                     Text (py "** API. This usually indicates an API key or connectivity issue.")])
              (snd (generate_paper_content (net_status 503) module_config
                      (py "Attention Is All You Need")
                      (emit (ESpinner (msg_spinner1 module_config
                                         (py "Attention Is All You Need")))
                         world0))))).
Proof.
  split.
  - destruct (stage2_gated_on_stage1 (net_ok (py "An abstract."))
                module_config (py "Attention Is All You Need")
                (py "Technical") (label Short) world0
                (snd (generate_paper_content (net_ok (py "An abstract."))
                        module_config (py "Attention Is All You Need")
                        (emit (ESpinner (msg_spinner1 module_config
                                           (py "Attention Is All You Need")))
                           world0)))
                (py "An abstract."))
      as (evs & Hl & _ & Hcalls).
    + intros H. discriminate H.
    + vm_compute. reflexivity.
    + exists evs. split; [exact Hl|]. apply Hcalls. intros H. discriminate H.
  - destruct (stage2_gated_on_stage1 (net_status 503)
                module_config (py "Attention Is All You Need")
                (py "Technical") (label Short) world0
                (snd (generate_paper_content (net_status 503)
                        module_config (py "Attention Is All You Need")
                        (emit (ESpinner (msg_spinner1 module_config
                                           (py "Attention Is All You Need")))
                           world0)))
                [])
      as (evs & Hl & Hempty & _).
    + intros H. discriminate H.
    + vm_compute. reflexivity.
    + destruct (Hempty eq_refl) as [Hcalls Hrun].
      split; [|exact Hrun]. rewrite Hl. exact Hcalls.
Defined.


(** ** Further properties *)

(** *** The shape of every call *)

Lemma raise_for_status_normal (resp : Response) :
  raise_for_status resp = Normal tt <-> not_error_status (status_code resp).
Proof.
  unfold raise_for_status, not_error_status.
  destruct (Z.leb_spec 400 (status_code resp));
    destruct (Z.ltb_spec (status_code resp) 500);
    destruct (Z.leb_spec 500 (status_code resp));
    destruct (Z.ltb_spec (status_code resp) 600);
    cbn [andb]; split; intros H'; try discriminate; try reflexivity;
    try lia.
Qed.

Lemma not_error_status_403 (resp : Response) :
  not_error_status (status_code resp) -> (status_code resp =? 403) = false.
Proof. unfold not_error_status. intros H. apply Z.eqb_neq. lia. Qed.

(** An iteration either sleeps after a [RequestException] and goes on, or
    makes the function return, with at most one report after its POST; a
    non-empty string is returned only with no report, as the text extracted
    from a response whose status is not an error. *)
Lemma iteration_shape (net : nat -> Request -> exc + Response)
    (r : Request) (retry_count i : Z) (w : world) :
  (i < retry_count - 1
   /\ (exists e, raised_by (net (sent w) r) = Some e
                 /\ is_RequestException e = true)
   /\ iteration net r retry_count i w
      = (Normal None, emit (ESleep (2 ^ i)) (posted r w)))
  \/ exists s tail,
       iteration net r retry_count i w
       = (Normal (Some s),
          {| sent := S (sent w); log := log w ++ EPost r :: tail |})
       /\ (tail = [] \/ exists m, tail = [EError m])
       /\ (s <> [] ->
           tail = []
           /\ exists resp result,
                net (sent w) r = inr resp
                /\ not_error_status (status_code resp)
                /\ json resp = Normal result
                /\ extract_text result = Normal s).
Proof.
  assert (Hreport : forall m,
    emit (EError m) (posted r w)
    = {| sent := S (sent w); log := log w ++ [EPost r; EError m] |}).
  { intros m. unfold emit, posted. cbn [sent log].
    now rewrite <- app_assoc. }
  destruct (raised_by (net (sent w) r)) as [e|] eqn:Hr.
  - destruct (is_RequestException e) eqn:He.
    + destruct (Z.lt_ge_cases i (retry_count - 1)) as [Hi|Hi].
      * left. split; [exact Hi|]. split; [now exists e|].
        now apply (iteration_retry net r retry_count i w e).
      * right. exists [], [EError (msg_final retry_count e)].
        rewrite (iteration_final net r retry_count i w e Hr He Hi), Hreport.
        split; [reflexivity|]. split; [right; eauto|]. congruence.
    + right. exists [], [EError (msg_unexpected e)].
      rewrite (iteration_unexpected net r retry_count i w e Hr He), Hreport.
      split; [reflexivity|]. split; [right; eauto|]. congruence.
  - right. unfold raised_by in Hr. unfold iteration, try_except.
    rewrite try_body_unfold.
    destruct (net (sent w) r) as [e|resp] eqn:Hn; [discriminate|].
    destruct (status_code resp =? 403) eqn:H403.
    + exists [], [EError msg_forbidden]. rewrite Hreport.
      split; [reflexivity|]. split; [right; eauto|]. congruence.
    + destruct (raise_for_status resp) as [[]|e] eqn:Hs;
        cbn [ctl_bind] in *; [|discriminate].
      destruct (json resp) as [result|e] eqn:Hj;
        cbn [ctl_bind] in *; [|discriminate].
      destruct (extract_text result) as [text|e] eqn:Ht; [|discriminate].
      exists text, []. split; [reflexivity|]. split; [now left|].
      intros _. split; [reflexivity|]. exists resp, result.
      repeat split; auto. now apply raise_for_status_normal.
Qed.

Section Shape.

Variable net : nat -> Request -> exc + Response.
Variable cfg : config.
Variables user_prompt system_instruction : pystr.
Variables max_tokens retry_count : Z.

Let req := request cfg user_prompt system_instruction max_tokens.

Lemma loop_shape (m : nat) : forall (i : nat) (w : world),
  (0 < m)%nat ->
  Z.of_nat (i + m) = retry_count ->
  exists k s tail,
    (k < m)%nat
    /\ transient_until net cfg user_prompt system_instruction max_tokens k w
    /\ for_loop (iteration net req retry_count) (map Z.of_nat (seq i m)) w
       = (Normal s,
          {| sent := sent w + S k;
             log := log w ++ backoff req i k ++ EPost req :: tail |})
    /\ (tail = [] \/ exists msg, tail = [EError msg])
    /\ (s <> [] ->
        tail = []
        /\ exists resp result,
             net (sent w + k)%nat req = inr resp
             /\ not_error_status (status_code resp)
             /\ json resp = Normal result
             /\ extract_text result = Normal s).
Proof.
  induction m as [|m IH]; intros i w Hm Hi; [lia|].
  cbn [seq map for_loop]. unfold bind.
  destruct (iteration_shape net req retry_count (Z.of_nat i) w)
    as [(Hlt & Htr & ->) | (s & tail & -> & Htail & Hs)].
  - destruct (IH (S i) (emit (ESleep (2 ^ Z.of_nat i)) (posted req w))
                ltac:(lia) ltac:(lia))
      as (k & s & tail & Hk & Ht & -> & Htail & Hs).
    exists (S k), s, tail. split; [lia|]. split; [|split; [|split]].
    + intros j Hj. destruct j as [|j].
      * now rewrite Nat.add_0_r.
      * destruct (Ht j ltac:(lia)) as (e & Hr & He). exists e.
        split; auto. cbn [sent emit posted] in Hr.
        now replace (sent w + S j)%nat with (S (sent w) + j)%nat by lia.
    + f_equal. unfold emit, posted, backoff. cbn [sent log seq flat_map].
      f_equal; [lia|]. now rewrite <- !app_assoc.
    + exact Htail.
    + intros Hne. destruct (Hs Hne) as (-> & resp & result & Hn & H').
      split; [reflexivity|]. exists resp, result. split; auto.
      cbn [sent emit posted] in Hn.
      now replace (sent w + S k)%nat with (S (sent w) + k)%nat by lia.
  - exists 0%nat, s, tail. split; [lia|]. split; [|split; [|split]].
    + intros j Hj. lia.
    + unfold ret, backoff. cbn [seq flat_map app]. f_equal. f_equal. lia.
    + exact Htail.
    + intros Hne. destruct (Hs Hne) as (-> & resp & result & Hn & H').
      split; [reflexivity|]. exists resp, result.
      now rewrite Nat.add_0_r.
Qed.

(** Every call with [retry_count >= 1] has this shape: [k] retried attempts
    with their sleeps, one more POST, and at most one report. *)
Lemma call_shape (w : world) :
  0 < retry_count ->
  exists k s tail,
    (k < Z.to_nat retry_count)%nat
    /\ transient_until net cfg user_prompt system_instruction max_tokens k w
    /\ gemini_api_call net cfg user_prompt system_instruction max_tokens
         retry_count w
       = (Normal s,
          {| sent := sent w + S k;
             log := log w ++ backoff req 0 k ++ EPost req :: tail |})
    /\ (tail = [] \/ exists msg, tail = [EError msg])
    /\ (s <> [] ->
        tail = []
        /\ exists resp result,
             net (sent w + k)%nat req = inr resp
             /\ not_error_status (status_code resp)
             /\ json resp = Normal result
             /\ extract_text result = Normal s).
Proof.
  intros Hpos. unfold gemini_api_call, range. fold req.
  apply loop_shape; lia.
Qed.

End Shape.

(** C8. A call with [retry_count >= 1] sends at least one POST, and every
    POST of a call goes to the endpoint with the key appended as the query
    parameter [key] when the configured key is not empty, and to the bare
    endpoint when it is empty. *)
Theorem gemini_api_call_url
    (net : nat -> Request -> exc + Response) (cfg : config)
    (user_prompt system_instruction : pystr) (max_tokens retry_count : Z)
    (w : world) :
  exists evs,
    log (snd (gemini_api_call net cfg user_prompt system_instruction
                max_tokens retry_count w)) = log w ++ evs
    /\ (0 < retry_count -> posts_of evs <> [])
    /\ (API_KEY cfg <> [] ->
        Forall (fun r => req_url r
                         = API_URL cfg ++ py "?key=" ++ API_KEY cfg)
          (posts_of evs))
    /\ (API_KEY cfg = [] ->
        Forall (fun r => req_url r = API_URL cfg) (posts_of evs)).
Proof.
  destruct (gemini_api_call_events net cfg user_prompt system_instruction
              max_tokens retry_count w) as (s & w' & evs & Hrun & Hl & Hev).
  exists evs. rewrite Hrun. split; [exact Hl|]. split.
  - intros Hpos.
    destruct (call_shape net cfg user_prompt system_instruction max_tokens
                retry_count w Hpos)
      as (k & s' & tail & _ & _ & Hshape & _ & _).
    rewrite Hrun in Hshape. injection Hshape as _ Hw'. subst w'.
    cbn [log] in Hl. apply app_inv_head in Hl. subst evs.
    rewrite posts_of_app, posts_of_backoff. cbn [posts_of flat_map app].
    intros H. apply app_eq_nil in H. destruct H as [_ H]. discriminate H.
  - apply posts_of_api_events in Hev.
    split; intros Hkey; (eapply Forall_impl; [|exact Hev]);
      intros r <-; cbn [req_url request]; unfold url;
      destruct (API_KEY cfg); cbn [truthy]; congruence.
Qed.

(** With the key of the module and with no key: three POSTs each, to the
    keyed and to the bare endpoint. *)
Lemma gemini_api_call_url_witness :
  (exists evs,
     log (snd (gemini_api_call (net_raises timed_out) module_config
                 (py "prompt") (py "instruction") 600 3 world0)) = evs
     /\ posts_of evs <> []
     /\ Forall (fun r => req_url r
                         = py "https://generativelanguage.googleapis.com/v1beta/models/gemini-2.0-flash:generateContent?key=YOUR_GEMINI_API_KEY")
          (posts_of evs))
  /\ (exists evs,
        log (snd (gemini_api_call (net_raises timed_out) keyless_config
                    (py "prompt") (py "instruction") 600 3 world0)) = evs
        /\ posts_of evs <> []
        /\ Forall (fun r => req_url r
                            = py "https://generativelanguage.googleapis.com/v1beta/models/gemini-2.0-flash:generateContent")
             (posts_of evs)).
Proof.
  split.
  - destruct (gemini_api_call_url (net_raises timed_out) module_config
                (py "prompt") (py "instruction") 600 3 world0)
      as (evs & Hl & Hsent & Hkey & _).
    exists evs. split; [exact Hl|]. split; [now apply Hsent|].
    apply Hkey. intros H. discriminate H.
  - destruct (gemini_api_call_url (net_raises timed_out) keyless_config
                (py "prompt") (py "instruction") 600 3 world0)
      as (evs & Hl & Hsent & _ & Hbare).
    exists evs. split; [exact Hl|]. split; [now apply Hsent|].
    now apply Hbare.
Defined.

(** *** The client beyond the first attempt and beyond 2xx *)

Lemma iteration_forbidden (net : nat -> Request -> exc + Response)
    (r : Request) (retry_count i : Z) (w : world) (resp : Response) :
  net (sent w) r = inr resp ->
  status_code resp = 403 ->
  iteration net r retry_count i w
  = (Normal (Some []),
     {| sent := S (sent w);
        log := log w ++ [EPost r; EError msg_forbidden] |}).
Proof.
  intros Hn Hs. unfold iteration, try_except.
  rewrite try_body_unfold, Hn, Hs. cbn [Z.eqb Pos.eqb].
  unfold emit, posted. cbn [sent log]. now rewrite <- app_assoc.
Qed.

Lemma iteration_returns (net : nat -> Request -> exc + Response)
    (r : Request) (retry_count i : Z) (w : world) (resp : Response)
    (result : pyval) (s : pystr) :
  net (sent w) r = inr resp ->
  not_error_status (status_code resp) ->
  json resp = Normal result ->
  extract_text result = Normal s ->
  iteration net r retry_count i w = (Normal (Some s), posted r w).
Proof.
  intros Hn Hs Hj He. unfold iteration, try_except.
  rewrite try_body_unfold, Hn, (not_error_status_403 resp Hs).
  apply raise_for_status_normal in Hs.
  now rewrite Hs, Hj; cbn [ctl_bind]; rewrite He.
Qed.

(** A response whose status is not an error and whose body yields a text,
    at attempt [k] after [k] retried attempts: the call returns the text. *)
Lemma call_returns_at (net : nat -> Request -> exc + Response)
    (cfg : config) (user_prompt system_instruction : pystr)
    (max_tokens retry_count : Z) (w : world) (k : nat) (resp : Response)
    (result : pyval) (s : pystr) :
  let req := request cfg user_prompt system_instruction max_tokens in
  Z.of_nat k < retry_count ->
  transient_until net cfg user_prompt system_instruction max_tokens k w ->
  net (sent w + k)%nat req = inr resp ->
  not_error_status (status_code resp) ->
  json resp = Normal result ->
  extract_text result = Normal s ->
  gemini_api_call net cfg user_prompt system_instruction max_tokens
    retry_count w
  = (Normal s,
     {| sent := (sent w + S k)%nat;
        log := log w ++ backoff req 0 k ++ [EPost req] |}).
Proof.
  intros req Hk Ht Hn Hs Hj He.
  rewrite (gemini_api_call_at net cfg user_prompt system_instruction
             max_tokens retry_count k w Hk Ht).
  fold req. unfold bind.
  rewrite (iteration_returns net req retry_count _ _ resp result s); auto.
  unfold ret, posted, after_backoff. cbn [sent log]. f_equal. f_equal.
  - lia.
  - now rewrite <- app_assoc.
Qed.

Lemma extract_text_falls_back (result : pyval) :
  falls_back result -> extract_text result = Normal [].
Proof.
  intros (d & -> & H). unfold extract_text, PyVal.get.
  destruct H as [->|(candidate & rest & -> & H)]; [reflexivity|].
  cbn [ctl_bind PyVal.index0].
  destruct H as [->|(content & -> & H)]; [reflexivity|].
  cbn [ctl_bind].
  destruct H as [->|(part & rest' & -> & Ht)]; [reflexivity|].
  cbn [ctl_bind PyVal.index0]. now rewrite Ht.
Qed.

Lemma total_sleeps (k : nat) :
  total (map (fun j => 2 ^ Z.of_nat j) (seq 0 k)) = 2 ^ Z.of_nat k - 1.
Proof.
  induction k as [|k IH]; [reflexivity|].
  rewrite seq_S, map_app. unfold total in *. rewrite fold_right_app.
  cbn [map fold_right plus].
  assert (Hgen : forall l a, fold_right Z.add a l = fold_right Z.add 0 l + a).
  { induction l as [|x l IHl]; intros a; cbn; [lia|]. rewrite IHl. lia. }
  rewrite Hgen, IH. rewrite Nat2Z.inj_succ, Z.pow_succ_r by lia. lia.
Qed.

(** X1. A 403 response ends the call at whatever attempt it comes: after
    [k] retried attempts, attempt [k] answered 403 is the last POST; the
    authorization error is reported, nothing is slept after it, and the
    empty string is returned. *)
Theorem gemini_api_call_forbidden_at
    (net : nat -> Request -> exc + Response) (cfg : config)
    (user_prompt system_instruction : pystr) (max_tokens retry_count : Z)
    (w : world) (k : nat) (resp : Response) :
  let req := request cfg user_prompt system_instruction max_tokens in
  Z.of_nat k < retry_count ->
  transient_until net cfg user_prompt system_instruction max_tokens k w ->
  net (sent w + k)%nat req = inr resp ->
  status_code resp = 403 ->
  gemini_api_call net cfg user_prompt system_instruction max_tokens
    retry_count w
  = (Normal [],
     {| sent := (sent w + S k)%nat;
        log := log w ++ backoff req 0 k
               ++ [EPost req; EError msg_forbidden] |}).
Proof.
  intros req Hk Ht Hn Hs.
  rewrite (gemini_api_call_at net cfg user_prompt system_instruction
             max_tokens retry_count k w Hk Ht).
  fold req. unfold bind.
  rewrite (iteration_forbidden net req retry_count _ _ resp); auto.
  unfold ret, after_backoff. cbn [sent log]. f_equal. f_equal.
  - lia.
  - now rewrite <- app_assoc.
Qed.

(** X2. Whatever the network does, a call sends at most [retry_count]
    POSTs (at least one when [retry_count >= 1]), all of them the same
    request, and reports at most one error. *)
Theorem gemini_api_call_effort
    (net : nat -> Request -> exc + Response) (cfg : config)
    (user_prompt system_instruction : pystr) (max_tokens retry_count : Z)
    (w : world) :
  let req := request cfg user_prompt system_instruction max_tokens in
  let w' := snd (gemini_api_call net cfg user_prompt system_instruction
                   max_tokens retry_count w) in
  exists evs p,
    log w' = log w ++ evs
    /\ sent w' = (sent w + p)%nat
    /\ posts_of evs = repeat req p
    /\ (Nat.min 1 (Z.to_nat retry_count) <= p <= Z.to_nat retry_count)%nat
    /\ (List.length (errors_of evs) <= 1)%nat.
Proof.
  intros req w'. subst w'.
  destruct (Z.lt_ge_cases 0 retry_count) as [Hpos|Hneg].
  - destruct (call_shape net cfg user_prompt system_instruction max_tokens
                retry_count w Hpos)
      as (k & s & tail & Hk & _ & -> & Htail & _).
    fold req. cbn [snd sent log].
    exists (backoff req 0 k ++ EPost req :: tail), (S k).
    split; [reflexivity|]. split; [reflexivity|].
    rewrite posts_of_app, errors_of_app, posts_of_backoff, errors_of_backoff.
    split; [|split; [lia|]].
    + replace (S k) with (k + 1)%nat by lia. rewrite repeat_app.
      f_equal. destruct Htail as [->|(m & ->)]; reflexivity.
    + destruct Htail as [->|(m & ->)]; cbn; lia.
  - unfold gemini_api_call. rewrite range_nonpos by lia.
    exists [], 0%nat. cbn. rewrite app_nil_r.
    replace (Z.to_nat retry_count) with 0%nat by lia.
    repeat split; auto.
Qed.

(** X3. The sleeps of a call are the first [k] powers of two, 1, 2, 4, ...,
    and add up to [2^k - 1] seconds; with [retry_count >= 1],
    [k <= retry_count - 1], so the call never sleeps more than
    [2^(retry_count - 1) - 1] seconds; with [retry_count <= 0] it does not
    sleep at all. *)
Theorem gemini_api_call_backoff_schedule
    (net : nat -> Request -> exc + Response) (cfg : config)
    (user_prompt system_instruction : pystr) (max_tokens retry_count : Z)
    (w : world) :
  let w' := snd (gemini_api_call net cfg user_prompt system_instruction
                   max_tokens retry_count w) in
  exists evs k,
    log w' = log w ++ evs
    /\ sleeps_of evs = map (fun j => 2 ^ Z.of_nat j) (seq 0 k)
    /\ total (sleeps_of evs) = 2 ^ Z.of_nat k - 1
    /\ (0 < retry_count ->
        Z.of_nat k <= retry_count - 1
        /\ total (sleeps_of evs) <= 2 ^ (retry_count - 1) - 1)
    /\ (retry_count <= 0 -> sleeps_of evs = []).
Proof.
  intros w'. subst w'.
  destruct (Z.lt_ge_cases 0 retry_count) as [Hpos|Hneg].
  - destruct (call_shape net cfg user_prompt system_instruction max_tokens
                retry_count w Hpos)
      as (k & s & tail & Hk & _ & -> & Htail & _).
    cbn [snd sent log]. eexists _, k. split; [reflexivity|].
    assert (Hs : sleeps_of
              (backoff (request cfg user_prompt system_instruction
                          max_tokens) 0 k
               ++ EPost (request cfg user_prompt system_instruction
                           max_tokens) :: tail)
            = map (fun j => 2 ^ Z.of_nat j) (seq 0 k)).
    { rewrite sleeps_of_app, sleeps_of_backoff.
      destruct Htail as [->|(m & ->)]; cbn; now rewrite app_nil_r. }
    rewrite Hs, total_sleeps. split; [reflexivity|]. split; [reflexivity|].
    split; [|lia]. intros _. split; [lia|].
    apply Z.sub_le_mono_r. apply Z.pow_le_mono_r; lia.
  - unfold gemini_api_call. rewrite range_nonpos by lia.
    exists [], 0%nat. cbn [snd ret for_loop]. rewrite app_nil_r.
    repeat split; try reflexivity; lia.
Qed.

(** *** What a caller can rely on *)

(** X4. The string a call returns never starts or ends with whitespace,
    whatever the network answered. *)
Theorem gemini_api_call_result_trimmed
    (net : nat -> Request -> exc + Response) (cfg : config)
    (user_prompt system_instruction : pystr) (max_tokens retry_count : Z)
    (w : world) :
  exists s,
    fst (gemini_api_call net cfg user_prompt system_instruction max_tokens
           retry_count w) = Normal s
    /\ (forall c t, s = c :: t -> isspace c = false)
    /\ (forall c t, s = t ++ [c] -> isspace c = false).
Proof.
  destruct (for_loop_normal net cfg user_prompt system_instruction
              max_tokens retry_count (range retry_count) w)
    as (s & w' & evs & H & _ & _ & Hs).
  exists s. unfold gemini_api_call. rewrite H. split; [reflexivity|].
  destruct Hs as [->|(n & resp & result & _ & _ & He)].
  - split; intros c t Heq; [discriminate|].
    destruct t; discriminate.
  - apply extract_text_normal in He.
    destruct (text_at_path result) as [x|].
    + destruct (strip_spec x) as (l & r & _ & _ & _ & Hhd & Hlast).
      subst s. split; assumption.
    + subst s. split; intros c t Heq; [discriminate|].
      destruct t; discriminate.
Qed.

(** X5. Emptiness of the result separates success from failure: a call
    that returns a non-empty string reported no error, and the string is
    the trimmed text at [candidates[0].content.parts[0].text] of a response
    whose status is not an error; a call that reported an error returns the
    empty string. *)
Theorem gemini_api_call_nonempty_is_success
    (net : nat -> Request -> exc + Response) (cfg : config)
    (user_prompt system_instruction : pystr) (max_tokens retry_count : Z)
    (w : world) :
  let req := request cfg user_prompt system_instruction max_tokens in
  exists s w' evs,
    gemini_api_call net cfg user_prompt system_instruction max_tokens
      retry_count w = (Normal s, w')
    /\ log w' = log w ++ evs
    /\ (s <> [] ->
        errors_of evs = []
        /\ exists n resp result x,
             net n req = inr resp
             /\ not_error_status (status_code resp)
             /\ json resp = Normal result
             /\ text_at_path result = Some x
             /\ s = strip x)
    /\ (errors_of evs <> [] -> s = []).
Proof.
  intros req.
  destruct (Z.lt_ge_cases 0 retry_count) as [Hpos|Hneg].
  - destruct (call_shape net cfg user_prompt system_instruction max_tokens
                retry_count w Hpos)
      as (k & s & tail & Hk & _ & -> & Htail & Hs).
    fold req in Hs |- *. eexists s, _, _. split; [reflexivity|].
    cbn [log]. split; [reflexivity|].
    assert (Hgood : s <> [] ->
      errors_of (backoff req 0 k ++ EPost req :: tail) = []
      /\ exists n resp result x,
           net n req = inr resp
           /\ not_error_status (status_code resp)
           /\ json resp = Normal result
           /\ text_at_path result = Some x
           /\ s = strip x).
    { intros Hne.
      destruct (Hs Hne) as (-> & resp & result & Hn & Hst & Hj & He).
      split.
      - now rewrite errors_of_app, errors_of_backoff.
      - apply extract_text_normal in He.
        destruct (text_at_path result) as [x|] eqn:Hx; [|congruence].
        exists (sent w + k)%nat, resp, result, x. auto. }
    split; [exact Hgood|].
    intros Herr. destruct s as [|c s]; [reflexivity|].
    destruct Hgood as [H0 _]; [discriminate|]. congruence.
  - unfold gemini_api_call. rewrite range_nonpos by lia.
    exists [], w, []. cbn. rewrite app_nil_r.
    repeat split; auto; congruence.
Qed.

(** X6. Success is not tied to 2xx: [raise_for_status] raises only for
    400-599, so a response with any other status (a 3xx that was not
    followed, a 1xx) whose body has a text at the path makes the call
    return that text, trimmed, with no report. *)
Theorem gemini_api_call_accepts_non_error_status
    (net : nat -> Request -> exc + Response) (cfg : config)
    (user_prompt system_instruction : pystr) (max_tokens retry_count : Z)
    (w : world) (k : nat) (resp : Response) (result : pyval) (x : pystr) :
  let req := request cfg user_prompt system_instruction max_tokens in
  Z.of_nat k < retry_count ->
  transient_until net cfg user_prompt system_instruction max_tokens k w ->
  net (sent w + k)%nat req = inr resp ->
  not_error_status (status_code resp) ->
  json resp = Normal result ->
  text_at_path result = Some x ->
  gemini_api_call net cfg user_prompt system_instruction max_tokens
    retry_count w
  = (Normal (strip x),
     {| sent := (sent w + S k)%nat;
        log := log w ++ backoff req 0 k ++ [EPost req] |}).
Proof.
  intros req Hk Ht Hn Hs Hj Hx.
  apply (call_returns_at net cfg user_prompt system_instruction max_tokens
           retry_count w k resp result (strip x)); auto.
  now apply extract_text_at_path.
Qed.

(** X7. A body that lacks a key on the way to the text is not an error:
    when [candidates], the [content] of the first candidate, its [parts] or
    the [text] of the first part is missing, the defaults of the [get]
    calls apply and the call returns the empty string without any report
    (unlike an empty [candidates] list, which is reported). *)
Theorem gemini_api_call_missing_key_is_silent
    (net : nat -> Request -> exc + Response) (cfg : config)
    (user_prompt system_instruction : pystr) (max_tokens retry_count : Z)
    (w : world) (k : nat) (resp : Response) (result : pyval) :
  let req := request cfg user_prompt system_instruction max_tokens in
  Z.of_nat k < retry_count ->
  transient_until net cfg user_prompt system_instruction max_tokens k w ->
  net (sent w + k)%nat req = inr resp ->
  not_error_status (status_code resp) ->
  json resp = Normal result ->
  falls_back result ->
  gemini_api_call net cfg user_prompt system_instruction max_tokens
    retry_count w
  = (Normal [],
     {| sent := (sent w + S k)%nat;
        log := log w ++ backoff req 0 k ++ [EPost req] |}).
Proof.
  intros req Hk Ht Hn Hs Hj Hf.
  apply (call_returns_at net cfg user_prompt system_instruction max_tokens
           retry_count w k resp result []); auto.
  now apply extract_text_falls_back.
Qed.

(** *** Substrings *)

Lemma startswith_app (p s : pystr) : startswith (p ++ s) p = true.
Proof.
  induction p as [|a p IH]; [destruct s; reflexivity|].
  cbn. now rewrite N.eqb_refl, IH.
Qed.

Lemma startswith_inv (p : pystr) : forall s,
  startswith s p = true -> exists b, s = p ++ b.
Proof.
  induction p as [|a p IH]; intros s H.
  - now exists s.
  - destruct s as [|c s]; [discriminate|]. cbn in H.
    apply andb_prop in H. destruct H as [Hac Hs].
    apply N.eqb_eq in Hac. subst c.
    destruct (IH s Hs) as (b & ->). now exists b.
Qed.

Lemma contains_startswith (p s : pystr) :
  startswith s p = true -> contains p s = true.
Proof. intros H. destruct s; cbn [contains]; now rewrite H. Qed.

Lemma contains_prefix (p s : pystr) : contains p (p ++ s) = true.
Proof. apply contains_startswith, startswith_app. Qed.

Lemma contains_self (p : pystr) : contains p p = true.
Proof.
  rewrite <- (app_nil_r p) at 2. apply contains_prefix.
Qed.

Lemma contains_skip (a s p : pystr) :
  contains p s = true -> contains p (a ++ s) = true.
Proof.
  intros H. induction a as [|c a IH]; [exact H|].
  cbn [app contains]. rewrite IH. apply orb_true_r.
Qed.

(** [p in s] holds exactly when [s] is [a + p + b] for some [a], [b]. *)
Lemma contains_iff (p s : pystr) :
  contains p s = true <-> exists a b, s = a ++ p ++ b.
Proof.
  split.
  - induction s as [|c s IH]; cbn [contains]; intros H.
    + rewrite orb_false_r in H. destruct (startswith_inv p [] H) as (b & Hb).
      now exists [], b.
    + apply orb_prop in H. destruct H as [H|H].
      * destruct (startswith_inv p (c :: s) H) as (b & Hb). now exists [], b.
      * destruct (IH H) as (a & b & ->). now exists (c :: a), b.
  - intros (a & b & ->). apply contains_skip, contains_prefix.
Qed.

Ltac find_substring :=
  repeat first [ apply contains_prefix | apply contains_self
               | apply contains_skip ].

(** *** What goes over the wire *)

Lemma user_prompt_of_request (cfg : config) (up si : pystr) (mt : Z) :
  user_prompt_of (request cfg up si mt) = Some up.
Proof. reflexivity. Qed.

Lemma system_instruction_of_request (cfg : config) (up si : pystr) (mt : Z) :
  system_instruction_of (request cfg up si mt) = Some si.
Proof. reflexivity. Qed.

(** X8. Every POST of a call, first attempt or retry, carries what the
    caller passed: its user prompt, its system instruction and its token
    ceiling, with the JSON content type. *)
Theorem gemini_api_call_carries_arguments
    (net : nat -> Request -> exc + Response) (cfg : config)
    (user_prompt system_instruction : pystr) (max_tokens retry_count : Z)
    (w : world) :
  exists evs,
    log (snd (gemini_api_call net cfg user_prompt system_instruction
                max_tokens retry_count w)) = log w ++ evs
    /\ Forall (fun r =>
                 user_prompt_of r = Some user_prompt
                 /\ system_instruction_of r = Some system_instruction
                 /\ max_output_tokens_of r = Some max_tokens
                 /\ PyVal.lookup (req_headers r) (py "Content-Type")
                    = Some (py "application/json"))
         (posts_of evs).
Proof.
  destruct (gemini_api_call_events net cfg user_prompt system_instruction
              max_tokens retry_count w) as (s & w' & evs & -> & Hl & Hev).
  exists evs. split; [exact Hl|].
  apply posts_of_api_events in Hev.
  eapply Forall_impl; [|exact Hev]. intros r <-.
  repeat split.
Qed.

(** X9. The temperature follows the capitalised word alone: an
    instruction in which [Summarize] occurs anywhere gives 0.7 on every
    POST, and an instruction in which it occurs nowhere gives 0.9. *)
Theorem gemini_api_call_temperature_rule
    (net : nat -> Request -> exc + Response) (cfg : config)
    (user_prompt system_instruction : pystr) (max_tokens retry_count : Z)
    (w : world) :
  exists evs,
    log (snd (gemini_api_call net cfg user_prompt system_instruction
                max_tokens retry_count w)) = log w ++ evs
    /\ ((exists a b, system_instruction = a ++ py "Summarize" ++ b) ->
        Forall (fun r => temperature_of r = Some (7 # 10)%Q) (posts_of evs))
    /\ ((forall a b, system_instruction <> a ++ py "Summarize" ++ b) ->
        Forall (fun r => temperature_of r = Some (9 # 10)%Q) (posts_of evs)).
Proof.
  destruct (gemini_api_call_events net cfg user_prompt system_instruction
              max_tokens retry_count w) as (s & w' & evs & -> & Hl & Hev).
  exists evs. split; [exact Hl|].
  apply posts_of_api_events in Hev.
  split; intros H; (eapply Forall_impl; [|exact Hev]); intros r <-;
    rewrite temperature_of_request; unfold temperature.
  - apply contains_iff in H. now rewrite H.
  - destruct (contains (py "Summarize") system_instruction) eqn:Hc;
      [|reflexivity].
    apply contains_iff in Hc. destruct Hc as (a & b & Hc).
    now destruct (H a b).
Qed.

(** X10. Every POST of Stage 2 carries the Stage-2 instruction and a
    prompt in which the title, the style label, the length label and the
    whole abstract occur verbatim, the abstract at its end. *)
Theorem summarize_content_prompt_embeds
    (net : nat -> Request -> exc + Response) (cfg : config)
    (content title style length : pystr) (w : world) :
  exists evs,
    log (snd (summarize_content net cfg content title style length w))
    = log w ++ evs
    /\ Forall (fun r =>
                 system_instruction_of r = Some summary_system_prompt
                 /\ exists q,
                      user_prompt_of r = Some q
                      /\ contains title q = true
                      /\ contains style q = true
                      /\ contains length q = true
                      /\ contains content q = true
                      /\ exists before, q = before ++ content)
         (posts_of evs).
Proof.
  destruct (summarize_content_events net cfg content title style length w)
    as (r & w' & evs & mt & -> & Hl & Hev).
  cbn [snd]. eexists. split; [exact Hl|].
  cbn [posts_of flat_map app]. apply posts_of_api_events in Hev.
  eapply Forall_impl; [|exact Hev]. intros rq <-.
  split; [reflexivity|].
  exists (summary_user_query content title style length).
  split; [reflexivity|]. unfold summary_user_query.
  repeat split; try solve [find_substring].
  eexists. rewrite !app_assoc. reflexivity.
Qed.

(** X11. Every POST of Stage 1 carries the Stage-1 instruction, the token
    ceiling 600 and a prompt in which the title occurs verbatim. *)
Theorem generate_paper_content_request
    (net : nat -> Request -> exc + Response) (cfg : config)
    (title : pystr) (w : world) :
  exists evs,
    log (snd (generate_paper_content net cfg title w)) = log w ++ evs
    /\ Forall (fun r =>
                 system_instruction_of r = Some generation_system_prompt
                 /\ max_output_tokens_of r = Some 600
                 /\ exists q,
                      user_prompt_of r = Some q
                      /\ contains title q = true)
         (posts_of evs).
Proof.
  destruct (generate_paper_content_events net cfg title w)
    as (s & w' & evs & -> & Hl & Hev).
  cbn [snd]. eexists. split; [exact Hl|].
  cbn [posts_of flat_map app]. apply posts_of_api_events in Hev.
  eapply Forall_impl; [|exact Hev]. intros rq <-.
  split; [reflexivity|]. split; [reflexivity|].
  exists (generation_user_query title). split; [reflexivity|].
  unfold generation_user_query. find_substring.
Qed.

(** *** The runs of the handler *)

Lemma label_cases (length : pystr) :
  (exists c, length = label c) \/ (forall c, length <> label c).
Proof.
  destruct (list_eq_dec N.eq_dec length (label Short)); [left; eauto|].
  destruct (list_eq_dec N.eq_dec length (label Medium)); [left; eauto|].
  destruct (list_eq_dec N.eq_dec length (label Long)); [left; eauto|].
  right. intros []; assumption.
Qed.


Lemma posts_of_call_log (r : Request) (k : nat) (tail : list event) :
  tail = [] \/ (exists m, tail = [EError m]) ->
  posts_of (call_log r k tail) = repeat r (S k).
Proof.
  intros Ht. unfold call_log.
  rewrite posts_of_app, posts_of_backoff.
  replace (S k) with (k + 1)%nat by lia. rewrite repeat_app. f_equal.
  destruct Ht as [->|(m & ->)]; reflexivity.
Qed.

Lemma sleeps_of_call_log (r : Request) (k : nat) (tail : list event) :
  tail = [] \/ (exists m, tail = [EError m]) ->
  sleeps_of (call_log r k tail) = map (fun j => 2 ^ Z.of_nat j) (seq 0 k).
Proof.
  intros Ht. unfold call_log.
  rewrite sleeps_of_app, sleeps_of_backoff.
  destruct Ht as [->|(m & ->)]; cbn; now rewrite app_nil_r.
Qed.

Lemma generate_calls_app (a b : list event) :
  generate_calls (a ++ b) = generate_calls a ++ generate_calls b.
Proof. apply flat_map_app. Qed.

Lemma generate_calls_call_log (r : Request) (k : nat) (tail : list event) :
  tail = [] \/ (exists m, tail = [EError m]) ->
  generate_calls (call_log r k tail) = [].
Proof.
  intros Ht. unfold call_log. rewrite generate_calls_app.
  assert (Hb : forall i, generate_calls (backoff r i k) = []).
  { induction k as [|k IH]; intros i; [reflexivity|].
    unfold backoff in *. cbn. apply IH. }
  rewrite Hb. destruct Ht as [->|(m & ->)]; reflexivity.
Qed.

(** Stage 1 is one call of the client with three attempts at most. *)
Lemma stage1_shape (net : nat -> Request -> exc + Response) (cfg : config)
    (title : pystr) (w : world) :
  exists k a tail,
    (k < 3)%nat
    /\ (tail = [] \/ exists m, tail = [EError m])
    /\ (a <> [] -> tail = [])
    /\ generate_paper_content net cfg title w
       = (Normal a,
          {| sent := sent w + S k;
             log := log w ++ ECallGenerate title
                             :: call_log (stage1_request cfg title) k tail |}).
Proof.
  unfold generate_paper_content.
  destruct (call_shape net cfg (generation_user_query title)
              generation_system_prompt 600 3
              (emit (ECallGenerate title) w) ltac:(lia))
    as (k & a & tail & Hk & _ & -> & Htail & Ha).
  exists k, a, tail. split; [exact Hk|]. split; [exact Htail|].
  split; [intros Hne; now destruct (Ha Hne)|].
  f_equal. unfold emit, call_log, stage1_request. cbn [sent log].
  f_equal. now rewrite <- app_assoc.
Qed.

(** Stage 2 with a known length is one call of the client with three
    attempts at most. *)
Lemma stage2_shape (net : nat -> Request -> exc + Response) (cfg : config)
    (content title style : pystr) (c : length_category) (w : world) :
  exists k s tail,
    (k < 3)%nat
    /\ (tail = [] \/ exists m, tail = [EError m])
    /\ (s <> [] -> tail = [])
    /\ summarize_content net cfg content title style (label c) w
       = (Normal s,
          {| sent := sent w + S k;
             log := log w ++ ECallSummarize content title style (label c)
                             :: call_log
                                  (stage2_request cfg content title style c)
                                  k tail |}).
Proof.
  unfold summarize_content, bind, lift. rewrite max_tokens_map_label.
  destruct (call_shape net cfg
              (summary_user_query content title style (label c))
              summary_system_prompt (budget c) 3
              (emit (ECallSummarize content title style (label c)) w)
              ltac:(lia))
    as (k & s & tail & Hk & _ & -> & Htail & Hs).
  exists k, s, tail. split; [exact Hk|]. split; [exact Htail|].
  split; [intros Hne; now destruct (Hs Hne)|].
  f_equal. unfold emit, call_log, stage2_request. cbn [sent log].
  f_equal. now rewrite <- app_assoc.
Qed.

Lemma stage2_key_error (net : nat -> Request -> exc + Response)
    (cfg : config) (content title style length : pystr) (w : world) :
  (forall c, length <> label c) ->
  summarize_content net cfg content title style length w
  = (Raised (Exc KeyError [PStr length]),
     emit (ECallSummarize content title style length) w).
Proof.
  intros H. unfold summarize_content, bind, lift.
  now rewrite max_tokens_map_other.
Qed.

(** The branch of Stage 2 with a known length: announce, call, show. *)
Lemma stage2_completes (net : nat -> Request -> exc + Response)
    (cfg : config) (abstract title style : pystr) (c : length_category)
    (w : world) :
  exists k s tail,
    (k < 3)%nat
    /\ (tail = [] \/ exists m, tail = [EError m])
    /\ (s <> [] -> tail = [])
    /\ summarize_content net cfg abstract title style (label c)
         {| sent := sent w;
            log := log w ++ stage2_announced cfg title style (label c) |}
       = (Normal s,
          {| sent := sent w + S k;
             log := log w ++ stage2_announced cfg title style (label c)
                    ++ ECallSummarize abstract title style (label c)
                       :: call_log
                            (stage2_request cfg abstract title style c)
                            k tail |})
    /\ stage2 net cfg abstract title style (label c) w
       = (Completed,
          {| sent := sent w + S k;
             log := log w ++ stage2_announced cfg title style (label c)
                    ++ ECallSummarize abstract title style (label c)
                       :: call_log
                            (stage2_request cfg abstract title style c)
                            k tail
                    ++ results_shown cfg abstract s |}).
Proof.
  assert (Hw : emit (ESpinner (msg_spinner2 cfg))
                 (emit (EMarkdown (msg_style_length style (label c)))
                    (emit (ESubheader (msg_subheader title)) w))
               = {| sent := sent w;
                    log := log w
                           ++ stage2_announced cfg title style (label c) |}).
  { unfold emit, stage2_announced. cbn [sent log].
    now rewrite <- !app_assoc. }
  unfold stage2. rewrite Hw.
  destruct (stage2_shape net cfg abstract title style c
              {| sent := sent w;
                 log := log w
                        ++ stage2_announced cfg title style (label c) |})
    as (k & s & tail & Hk & Htail & Hs & ->).
  exists k, s, tail. split; [exact Hk|]. split; [exact Htail|].
  split; [exact Hs|]. cbn [sent log]. split.
  - now rewrite <- app_assoc.
  - f_equal. unfold results_shown, emit.
    destruct (truthy s); cbn [sent log app]; f_equal;
      rewrite <- !app_assoc; cbn [app]; rewrite <- ?app_assoc;
      reflexivity.
Qed.

(** The branch of Stage 2 with an unknown length: announce, fail at the
    table lookup, report and stop. *)
Lemma stage2_stops (net : nat -> Request -> exc + Response)
    (cfg : config) (abstract title style length : pystr) (w : world) :
  (forall c, length <> label c) ->
  stage2 net cfg abstract title style length w
  = (Stopped,
     {| sent := sent w;
        log := log w ++ stage2_announced cfg title style length
               ++ [ECallSummarize abstract title style length;
                   EError (msg_stage2_error
                             (Exc KeyError [PStr length]))] |}).
Proof.
  intros H. unfold stage2. rewrite stage2_key_error by exact H.
  unfold emit, stage2_announced. cbn [sent log]. f_equal. f_equal.
  now rewrite <- !app_assoc.
Qed.

(** The three ways a press of the button with a title can go: Stage 1
    returns nothing; Stage 1 returns an abstract and the length is unknown;
    Stage 1 returns an abstract and Stage 2 runs. *)
Lemma handler_cases (net : nat -> Request -> exc + Response) (cfg : config)
    (title style length : pystr) (w : world) :
  title <> [] ->
  exists k1 a tail1,
    (k1 < 3)%nat
    /\ (tail1 = [] \/ exists m, tail1 = [EError m])
    /\ (a <> [] -> tail1 = [])
    /\ let pre := [ESpinner (msg_spinner1 cfg title); ECallGenerate title]
                  ++ call_log (stage1_request cfg title) k1 tail1 in
       let run := on_generate_and_summarize net cfg title style length w in
       generate_paper_content net cfg title
         (emit (ESpinner (msg_spinner1 cfg title)) w)
       = (Normal a, {| sent := sent w + S k1; log := log w ++ pre |})
       /\ ((a = []
            /\ run = (Completed,
                      {| sent := sent w + S k1;
                         log := log w ++ pre
                                ++ [EError (msg_stage1_failed cfg)] |}))
           \/ (a <> []
               /\ (forall c, length <> label c)
               /\ run = (Stopped,
                         {| sent := sent w + S k1;
                            log := log w ++ pre
                                   ++ stage2_announced cfg title style length
                                   ++ [ECallSummarize a title style length;
                                       EError (msg_stage2_error
                                                 (Exc KeyError
                                                    [PStr length]))] |}))
           \/ (a <> []
               /\ exists c k2 s tail2,
                    length = label c
                    /\ (k2 < 3)%nat
                    /\ (tail2 = [] \/ exists m, tail2 = [EError m])
                    /\ (s <> [] -> tail2 = [])
                    /\ run = (Completed,
                              {| sent := sent w + S k1 + S k2;
                                 log := log w ++ pre
                                   ++ stage2_announced cfg title style length
                                   ++ [ECallSummarize a title style length]
                                   ++ call_log
                                        (stage2_request cfg a title
                                           style c) k2 tail2
                                   ++ results_shown cfg a s |}))).
Proof.
  intros Htitle.
  destruct (stage1_shape net cfg title
              (emit (ESpinner (msg_spinner1 cfg title)) w))
    as (k1 & a & tail1 & Hk & Htail & Ha & Hgen).
  exists k1, a, tail1. split; [exact Hk|]. split; [exact Htail|].
  split; [exact Ha|]. intros pre run.
  assert (Hw1 : {| sent := sent (emit (ESpinner (msg_spinner1 cfg title)) w)
                           + S k1;
                   log := log (emit (ESpinner (msg_spinner1 cfg title)) w)
                          ++ ECallGenerate title
                             :: call_log (stage1_request cfg title) k1
                                  tail1 |}
                = {| sent := sent w + S k1; log := log w ++ pre |}).
  { unfold emit. cbn [sent log]. f_equal. now rewrite <- app_assoc. }
  rewrite Hw1 in Hgen. split; [exact Hgen|].
  subst run. unfold on_generate_and_summarize.
  replace (truthy title) with true
    by (destruct title; [now destruct Htitle | reflexivity]).
  cbn [negb]. rewrite Hgen.
  destruct a as [|ch a].
  - left. split; [reflexivity|]. cbn [truthy negb]. unfold emit.
    cbn [sent log]. f_equal. f_equal. now rewrite <- app_assoc.
  - right. cbn [truthy negb].
    destruct (label_cases length) as [(c & ->)|Hother].
    + right. split; [discriminate|].
      destruct (stage2_completes net cfg (ch :: a) title style c
                  {| sent := sent w + S k1; log := log w ++ pre |})
        as (k2 & s & tail2 & Hk2 & Htail2 & Hs & _ & ->).
      exists c, k2, s, tail2. repeat split; auto.
      cbn [sent log]. f_equal. f_equal. now rewrite <- app_assoc.
    + left. split; [discriminate|]. split; [exact Hother|].
      rewrite stage2_stops by exact Hother.
      cbn [sent log]. f_equal. f_equal. now rewrite <- app_assoc.
Qed.

Lemma total_app (a b : list Z) : total (a ++ b) = total a + total b.
Proof.
  unfold total. induction a as [|x a IH]; cbn; [reflexivity|].
  rewrite IH. lia.
Qed.

Lemma total_backoff_le (k : nat) :
  (k < 3)%nat -> total (map (fun j => 2 ^ Z.of_nat j) (seq 0 k)) <= 3.
Proof.
  intros H. destruct k as [|[|[|k]]]; cbn; lia.
Qed.

Lemma errors_of_call_log (r : Request) (k : nat) (tail : list event) :
  errors_of (call_log r k tail) = errors_of tail.
Proof.
  unfold call_log. now rewrite errors_of_app, errors_of_backoff.
Qed.

Lemma summarize_calls_call_log (r : Request) (k : nat) (tail : list event) :
  tail = [] \/ (exists m, tail = [EError m]) ->
  summarize_calls (call_log r k tail) = [].
Proof.
  intros Ht. unfold call_log. rewrite summarize_calls_app.
  assert (Hb : forall i, summarize_calls (backoff r i k) = []).
  { induction k as [|k IH]; intros i; [reflexivity|].
    unfold backoff in *. cbn. apply IH. }
  rewrite Hb. destruct Ht as [->|(m & ->)]; reflexivity.
Qed.

Lemma results_shown_counts (cfg : config) (a s : pystr) :
  posts_of (results_shown cfg a s) = []
  /\ sleeps_of (results_shown cfg a s) = []
  /\ generate_calls (results_shown cfg a s) = []
  /\ summarize_calls (results_shown cfg a s) = []
  /\ errors_of (results_shown cfg a s)
     = (if truthy s then [] else [msg_stage2_failed cfg]).
Proof. unfold results_shown. destruct (truthy s); repeat split. Qed.

Ltac count_events :=
  rewrite ?posts_of_app, ?sleeps_of_app, ?errors_of_app, ?generate_calls_app,
    ?summarize_calls_app;
  rewrite ?posts_of_call_log, ?sleeps_of_call_log, ?errors_of_call_log,
    ?generate_calls_call_log, ?summarize_calls_call_log by assumption;
  rewrite ?(proj1 (results_shown_counts _ _ _)),
    ?(proj1 (proj2 (results_shown_counts _ _ _))),
    ?(proj1 (proj2 (proj2 (results_shown_counts _ _ _)))),
    ?(proj1 (proj2 (proj2 (proj2 (results_shown_counts _ _ _))))),
    ?(proj2 (proj2 (proj2 (proj2 (results_shown_counts _ _ _))))).

Lemma handler_stage1_calls
    (net : nat -> Request -> exc + Response) (cfg : config)
    (title style length : pystr) (w : world) :
  let w' := snd (on_generate_and_summarize net cfg title style length w) in
  exists evs,
    log w' = log w ++ evs
    /\ generate_calls evs = (if truthy title then [title] else [])
    /\ (title = [] ->
        evs = [EError msg_no_title] /\ sent w' = sent w).
Proof.
  intros w'. subst w'. destruct title as [|ch title].
  - exists [EError msg_no_title]. repeat split.
  - destruct (handler_cases net cfg (ch :: title) style length w
                ltac:(discriminate))
      as (k1 & a & tail1 & _ & Ht1 & _ & H).
    cbv zeta in H. destruct H as [_ H].
    destruct H as [(_ & ->) | [(_ & _ & ->) | (_ & c & k2 & s & tail2 & -> &
                                               _ & Ht2 & _ & ->)]];
      cbn [snd log]; eexists; (split; [reflexivity|]);
      (split; [|discriminate]); count_events; reflexivity.
Qed.

Lemma listed_title_not_empty (title : pystr) :
  In title RESEARCH_PAPER_TITLES -> truthy title = true.
Proof.
  intros [<-|[<-|[<-|[<-|[<-|[<-|[]]]]]]]; reflexivity.
Qed.

(** X12. A press of the button calls Stage 1 exactly once, with the title,
    when the title is not empty, as every title of the selection list is;
    with an empty title it calls nothing, sends nothing and only asks for
    a title. *)
Theorem handler_calls_stage1_once
    (net : nat -> Request -> exc + Response) (cfg : config)
    (title style length : pystr) (w : world) :
  let w' := snd (on_generate_and_summarize net cfg title style length w) in
  exists evs,
    log w' = log w ++ evs
    /\ generate_calls evs = (if truthy title then [title] else [])
    /\ (In title RESEARCH_PAPER_TITLES -> generate_calls evs = [title])
    /\ (title = [] ->
        evs = [EError msg_no_title] /\ sent w' = sent w).
Proof.
  intros w'. subst w'.
  destruct (handler_stage1_calls net cfg title style length w)
    as (evs & Hl & Hg & He).
  exists evs. split; [exact Hl|]. split; [exact Hg|]. split; [|exact He].
  intros Hin. now rewrite (listed_title_not_empty title Hin) in Hg.
Qed.


(** X14. Whatever the network does, one press of the button sends at most
    six POSTs, sleeps at most six seconds in all, and reports at most two
    errors. *)
Theorem handler_effort
    (net : nat -> Request -> exc + Response) (cfg : config)
    (title style length : pystr) (w : world) :
  let w' := snd (on_generate_and_summarize net cfg title style length w) in
  exists evs p,
    log w' = log w ++ evs
    /\ sent w' = (sent w + p)%nat
    /\ List.length (posts_of evs) = p
    /\ (p <= 6)%nat
    /\ total (sleeps_of evs) <= 6
    /\ (List.length (errors_of evs) <= 2)%nat.
Proof.
  intros w'. subst w'. destruct title as [|ch title].
  - exists [EError msg_no_title], 0%nat. cbn. repeat split; auto; lia.
  - destruct (handler_cases net cfg (ch :: title) style length w
                ltac:(discriminate))
      as (k1 & a & tail1 & Hk1 & Ht1 & Ha & H).
    cbv zeta in H. destruct H as [_ H].
    pose proof (total_backoff_le k1 Hk1) as Hb1.
    pose proof total_app as Hsum. unfold total in Hb1, Hsum.
    assert (He1 : (List.length (errors_of tail1) <= 1)%nat)
      by (destruct Ht1 as [->|(m & ->)]; cbn; lia).
    destruct H as [(_ & ->) | [(_ & _ & ->) | (Hne & c & k2 & s & tail2 & ->
                                               & Hk2 & Ht2 & Hs & ->)]];
      cbn [snd log sent].
    + eexists _, (S k1). split; [reflexivity|]. split; [reflexivity|].
      count_events. rewrite !length_app, repeat_length. cbn.
      rewrite ?app_nil_r. repeat split; lia.
    + eexists _, (S k1). split; [reflexivity|]. split; [reflexivity|].
      count_events. rewrite !length_app, repeat_length. cbn.
      rewrite ?app_nil_r. repeat split; lia.
    + pose proof (total_backoff_le k2 Hk2) as Hb2. unfold total in Hb2.
      assert (He2 : (List.length (errors_of tail2)
                     + List.length (if truthy s then []
                                    else [msg_stage2_failed cfg]) <= 2)%nat).
      { destruct s as [|c' s].
        - destruct Ht2 as [->|(m & ->)]; cbn; lia.
        - rewrite (Hs ltac:(discriminate)). cbn. lia. }
      pose proof (Ha Hne) as Et. subst tail1.
      eexists _, (S k1 + S k2)%nat. split; [reflexivity|].
      split; [lia|].
      count_events. rewrite !length_app, !repeat_length. cbn.
      rewrite ?app_nil_r, ?Hsum, ?length_app.
      repeat split; lia.
Qed.

(** X15. A run without any error report is a run that succeeded: the
    handler ran to its end and the page ends with a non-empty summary and
    the non-empty abstract it was made from. *)
Theorem handler_silent_means_success
    (net : nat -> Request -> exc + Response) (cfg : config)
    (title style length : pystr) (w : world) :
  let run := on_generate_and_summarize net cfg title style length w in
  exists evs,
    log (snd run) = log w ++ evs
    /\ (errors_of evs = [] ->
        fst run = Completed
        /\ exists a s before,
             a <> [] /\ s <> []
             /\ summarize_calls evs = [(a, title, style, length)]
             /\ evs = before
                      ++ [EMarkdown [Text (py "---")]; EMarkdown [Text s];
                          EMarkdown [Text (py "---")];
                          EExpander msg_expander; ECode a]).
Proof.
  intros run. subst run. destruct title as [|ch title].
  - exists [EError msg_no_title]. split; [reflexivity|]. discriminate.
  - destruct (handler_cases net cfg (ch :: title) style length w
                ltac:(discriminate))
      as (k1 & a & tail1 & Hk1 & Ht1 & Ha & H).
    cbv zeta in H. destruct H as [_ H].
    destruct H as [(_ & ->) | [(_ & _ & ->) | (Hne & c & k2 & s & tail2 & ->
                                               & Hk2 & Ht2 & Hs & ->)]];
      cbn [fst snd log]; eexists; (split; [reflexivity|]); intros Herr.
    + exfalso. revert Herr. count_events.
      intros Herr. apply app_eq_nil in Herr. destruct Herr as [_ Herr].
      discriminate Herr.
    + exfalso. revert Herr. count_events.
      intros Herr. apply app_eq_nil in Herr. destruct Herr as [_ Herr].
      apply app_eq_nil in Herr. destruct Herr as [_ Herr].
      discriminate Herr.
    + split; [reflexivity|].
      assert (Hs' : truthy s = true).
      { revert Herr. count_events. intros Herr.
        repeat (apply app_eq_nil in Herr; destruct Herr as [_ Herr]).
        destruct (truthy s); [reflexivity|discriminate]. }
      exists a, s,
        (([ESpinner (msg_spinner1 cfg (ch :: title));
           ECallGenerate (ch :: title)]
          ++ call_log (stage1_request cfg (ch :: title)) k1 tail1)
         ++ stage2_announced cfg (ch :: title) style (label c)
         ++ [ECallSummarize a (ch :: title) style (label c)]
         ++ call_log (stage2_request cfg a (ch :: title) style c) k2 tail2).
      split; [exact Hne|].
      split; [destruct s; [discriminate|discriminate]|].
      split.
      * count_events. reflexivity.
      * unfold results_shown. rewrite Hs'.
        rewrite <- !app_assoc. reflexivity.
Qed.

(** *** Whole runs, from the answers of the network *)

Lemma call_exhausted (net : nat -> Request -> exc + Response) (cfg : config)
    (user_prompt system_instruction : pystr) (max_tokens retry_count : Z)
    (w : world) (errs : nat -> exc) :
  let req := request cfg user_prompt system_instruction max_tokens in
  let n := Z.to_nat retry_count in
  0 < retry_count ->
  (forall i, (i < n)%nat ->
     raised_by (net (sent w + i)%nat req) = Some (errs i)
     /\ is_RequestException (errs i) = true) ->
  gemini_api_call net cfg user_prompt system_instruction max_tokens
    retry_count w
  = (Normal [],
     {| sent := (sent w + n)%nat;
        log := log w ++ backoff req 0 (n - 1)%nat
               ++ [EPost req;
                   EError (msg_final retry_count (errs (n - 1)%nat))] |}).
Proof.
  intros req n Hpos Hall.
  assert (Hn : (0 < n)%nat) by (subst n; lia).
  rewrite (gemini_api_call_at net cfg user_prompt system_instruction
             max_tokens retry_count (n - 1) w).
  - fold req. unfold bind.
    destruct (Hall (n - 1)%nat ltac:(lia)) as [Hr He].
    rewrite (iteration_final net req retry_count _ _ (errs (n - 1)%nat));
      auto; [|subst n; lia].
    unfold ret, emit, posted, after_backoff. cbn [sent log].
    f_equal. f_equal.
    + lia.
    + now rewrite <- !app_assoc.
  - subst n. lia.
  - intros j Hj. exists (errs j). apply Hall. lia.
Qed.

Lemma generate_returns_first (net : nat -> Request -> exc + Response)
    (cfg : config) (title : pystr) (w : world) (resp : Response)
    (result : pyval) (x : pystr) :
  net (sent w) (stage1_request cfg title) = inr resp ->
  not_error_status (status_code resp) ->
  json resp = Normal result ->
  text_at_path result = Some x ->
  generate_paper_content net cfg title w
  = (Normal (strip x),
     {| sent := S (sent w);
        log := log w ++ [ECallGenerate title;
                         EPost (stage1_request cfg title)] |}).
Proof.
  intros Hn Hs Hj Hx. unfold generate_paper_content.
  rewrite (call_returns_at net cfg (generation_user_query title)
             generation_system_prompt 600 3 (emit (ECallGenerate title) w)
             0 resp result (strip x)); auto.
  - unfold emit, stage1_request. cbn [sent log backoff seq flat_map app].
    f_equal. f_equal; [lia|]. now rewrite <- app_assoc.
  - lia.
  - intros j Hj'. lia.
  - cbn [sent emit]. now rewrite Nat.add_0_r.
  - now apply extract_text_at_path.
Qed.

Lemma summarize_returns_first (net : nat -> Request -> exc + Response)
    (cfg : config) (content title style : pystr) (c : length_category)
    (w : world) (resp : Response) (result : pyval) (x : pystr) :
  net (sent w) (stage2_request cfg content title style c) = inr resp ->
  not_error_status (status_code resp) ->
  json resp = Normal result ->
  text_at_path result = Some x ->
  summarize_content net cfg content title style (label c) w
  = (Normal (strip x),
     {| sent := S (sent w);
        log := log w ++ [ECallSummarize content title style (label c);
                         EPost (stage2_request cfg content title style c)]
     |}).
Proof.
  intros Hn Hs Hj Hx. unfold summarize_content, bind, lift.
  rewrite max_tokens_map_label.
  rewrite (call_returns_at net cfg
             (summary_user_query content title style (label c))
             summary_system_prompt (budget c) 3
             (emit (ECallSummarize content title style (label c)) w)
             0 resp result (strip x)); auto.
  - unfold emit, stage2_request. cbn [sent log backoff seq flat_map app].
    f_equal. f_equal; [lia|]. now rewrite <- app_assoc.
  - lia.
  - intros j Hj'. lia.
  - cbn [sent emit]. now rewrite Nat.add_0_r.
  - now apply extract_text_at_path.
Qed.

Lemma summarize_exhausted (net : nat -> Request -> exc + Response)
    (cfg : config) (content title style : pystr) (c : length_category)
    (w : world) (errs : nat -> exc) :
  let req := stage2_request cfg content title style c in
  (forall i, (i < 3)%nat ->
     raised_by (net (sent w + i)%nat req) = Some (errs i)
     /\ is_RequestException (errs i) = true) ->
  summarize_content net cfg content title style (label c) w
  = (Normal [],
     {| sent := (sent w + 3)%nat;
        log := log w ++ [ECallSummarize content title style (label c);
                         EPost req; ESleep 1; EPost req; ESleep 2;
                         EPost req; EError (msg_final 3 (errs 2%nat))] |}).
Proof.
  intros req Hall. unfold summarize_content, bind, lift.
  rewrite max_tokens_map_label.
  rewrite (call_exhausted net cfg
             (summary_user_query content title style (label c))
             summary_system_prompt (budget c) 3
             (emit (ECallSummarize content title style (label c)) w) errs);
    [|lia|exact Hall].
  unfold emit. cbn [sent log]. f_equal. f_equal.
  now rewrite <- app_assoc.
Qed.

Lemma generate_exhausted (net : nat -> Request -> exc + Response)
    (cfg : config) (title : pystr) (w : world) (errs : nat -> exc) :
  let req := stage1_request cfg title in
  (forall i, (i < 3)%nat ->
     raised_by (net (sent w + i)%nat req) = Some (errs i)
     /\ is_RequestException (errs i) = true) ->
  generate_paper_content net cfg title w
  = (Normal [],
     {| sent := (sent w + 3)%nat;
        log := log w ++ [ECallGenerate title;
                         EPost req; ESleep 1; EPost req; ESleep 2;
                         EPost req; EError (msg_final 3 (errs 2%nat))] |}).
Proof.
  intros req Hall. unfold generate_paper_content.
  rewrite (call_exhausted net cfg (generation_user_query title)
             generation_system_prompt 600 3
             (emit (ECallGenerate title) w) errs);
    [|lia|exact Hall].
  unfold emit. cbn [sent log]. f_equal. f_equal.
  now rewrite <- app_assoc.
Qed.

(** X16. When the three attempts of Stage 1 all raise a
    [RequestException], the run is: three POSTs with sleeps of 1 and 2
    seconds between them, the report of the client, the report that
    Stage 1 failed; Stage 2 is not entered and nothing more is sent. *)
Theorem handler_stage1_exhausted
    (net : nat -> Request -> exc + Response) (cfg : config)
    (title style length : pystr) (w : world) (errs : nat -> exc) :
  let req := stage1_request cfg title in
  title <> [] ->
  (forall i, (i < 3)%nat ->
     raised_by (net (sent w + i)%nat req) = Some (errs i)
     /\ is_RequestException (errs i) = true) ->
  on_generate_and_summarize net cfg title style length w
  = (Completed,
     {| sent := (sent w + 3)%nat;
        log := log w
               ++ [ESpinner (msg_spinner1 cfg title); ECallGenerate title;
                   EPost req; ESleep 1; EPost req; ESleep 2; EPost req;
                   EError (msg_final 3 (errs 2%nat));
                   EError (msg_stage1_failed cfg)] |}).
Proof.
  intros req Htitle Hall. unfold on_generate_and_summarize.
  replace (truthy title) with true
    by (destruct title; [now destruct Htitle | reflexivity]).
  cbn [negb].
  rewrite (generate_exhausted net cfg title
             (emit (ESpinner (msg_spinner1 cfg title)) w) errs)
    by exact Hall.
  cbn [truthy negb]. unfold emit. cbn [sent log]. f_equal. f_equal.
  now rewrite <- !app_assoc.
Qed.

(** X17. When the first POST of each stage is answered by a response whose
    status is not an error and whose body has a text, and the abstract is
    not blank, the run is: one POST for Stage 1, one POST for Stage 2 whose
    prompt is built from the trimmed abstract, then the trimmed summary and
    the abstract on the page, with no sleep and no report of the client. *)
Theorem handler_succeeds_first_try
    (net : nat -> Request -> exc + Response) (cfg : config)
    (title style : pystr) (c : length_category) (w : world)
    (resp1 resp2 : Response) (result1 result2 : pyval) (x1 x2 : pystr) :
  let req1 := stage1_request cfg title in
  let req2 := stage2_request cfg (strip x1) title style c in
  title <> [] ->
  net (sent w) req1 = inr resp1 ->
  not_error_status (status_code resp1) ->
  json resp1 = Normal result1 ->
  text_at_path result1 = Some x1 ->
  strip x1 <> [] ->
  net (S (sent w)) req2 = inr resp2 ->
  not_error_status (status_code resp2) ->
  json resp2 = Normal result2 ->
  text_at_path result2 = Some x2 ->
  on_generate_and_summarize net cfg title style (label c) w
  = (Completed,
     {| sent := S (S (sent w));
        log := log w
               ++ [ESpinner (msg_spinner1 cfg title); ECallGenerate title;
                   EPost req1]
               ++ stage2_announced cfg title style (label c)
               ++ [ECallSummarize (strip x1) title style (label c);
                   EPost req2]
               ++ results_shown cfg (strip x1) (strip x2) |}).
Proof.
  intros req1 req2 Htitle Hn1 Hs1 Hj1 Hx1 Hne Hn2 Hs2 Hj2 Hx2.
  unfold on_generate_and_summarize.
  replace (truthy title) with true
    by (destruct title; [now destruct Htitle | reflexivity]).
  cbn [negb].
  rewrite (generate_returns_first net cfg title
             (emit (ESpinner (msg_spinner1 cfg title)) w)
             resp1 result1 x1); auto.
  replace (truthy (strip x1)) with true
    by (destruct (strip x1); [now destruct Hne | reflexivity]).
  cbn [negb]. unfold stage2.
  rewrite (summarize_returns_first net cfg (strip x1) title style c _
             resp2 result2 x2); auto.
  unfold results_shown, stage2_announced, emit.
  destruct (truthy (strip x2)); cbn [sent log]; f_equal; f_equal;
    rewrite <- !app_assoc; reflexivity.
Qed.

(** X18. Partial progress is shown: when Stage 1 succeeds at its first
    POST and the three attempts of Stage 2 all raise a [RequestException],
    the handler still runs to its end; it reports the failure of the
    client and of Stage 2, shows an empty summary, and shows the abstract
    Stage 1 produced. *)
Theorem handler_stage2_exhausted
    (net : nat -> Request -> exc + Response) (cfg : config)
    (title style : pystr) (c : length_category) (w : world)
    (resp1 : Response) (result1 : pyval) (x1 : pystr) (errs : nat -> exc) :
  let req1 := stage1_request cfg title in
  let req2 := stage2_request cfg (strip x1) title style c in
  title <> [] ->
  net (sent w) req1 = inr resp1 ->
  not_error_status (status_code resp1) ->
  json resp1 = Normal result1 ->
  text_at_path result1 = Some x1 ->
  strip x1 <> [] ->
  (forall i, (i < 3)%nat ->
     raised_by (net (S (sent w) + i)%nat req2) = Some (errs i)
     /\ is_RequestException (errs i) = true) ->
  on_generate_and_summarize net cfg title style (label c) w
  = (Completed,
     {| sent := (sent w + 4)%nat;
        log := log w
               ++ [ESpinner (msg_spinner1 cfg title); ECallGenerate title;
                   EPost req1]
               ++ stage2_announced cfg title style (label c)
               ++ [ECallSummarize (strip x1) title style (label c);
                   EPost req2; ESleep 1; EPost req2; ESleep 2; EPost req2;
                   EError (msg_final 3 (errs 2%nat));
                   EError (msg_stage2_failed cfg);
                   EMarkdown [Text (py "---")]; EMarkdown [Text []];
                   EMarkdown [Text (py "---")];
                   EExpander msg_expander; ECode (strip x1)] |}).
Proof.
  intros req1 req2 Htitle Hn1 Hs1 Hj1 Hx1 Hne Hall.
  unfold on_generate_and_summarize.
  replace (truthy title) with true
    by (destruct title; [now destruct Htitle | reflexivity]).
  cbn [negb].
  rewrite (generate_returns_first net cfg title
             (emit (ESpinner (msg_spinner1 cfg title)) w)
             resp1 result1 x1); auto.
  replace (truthy (strip x1)) with true
    by (destruct (strip x1); [now destruct Hne | reflexivity]).
  cbn [negb]. unfold stage2.
  rewrite (summarize_exhausted net cfg (strip x1) title style c _ errs)
    by exact Hall.
  unfold stage2_announced, emit. cbn [truthy sent log]. f_equal. f_equal.
  - lia.
  - rewrite <- !app_assoc. reflexivity.
Qed.

(** *** The further properties at sample inputs *)

(** A 503 and then a 403: two POSTs, one sleep of a second, the
    authorization report. *)
Lemma gemini_api_call_forbidden_at_witness :
  gemini_api_call
    (net_seq [inr (response_with 503 (Normal PNone))]
       (inr (response_with 403 (Normal PNone))))
    module_config (py "prompt") (py "instruction") 600 3 world0
  = (Normal [],
     {| sent := 2;
        log := [EPost (request module_config (py "prompt")
                         (py "instruction") 600);
                ESleep 1;
                EPost (request module_config (py "prompt")
                         (py "instruction") 600);
                EError msg_forbidden] |}).
Proof.
  apply (gemini_api_call_forbidden_at
           (net_seq [inr (response_with 503 (Normal PNone))]
              (inr (response_with 403 (Normal PNone))))
           module_config (py "prompt") (py "instruction") 600 3 world0 1
           (response_with 403 (Normal PNone))).
  - reflexivity.
  - intros j Hj. exists unavailable.
    destruct j as [|j]; [split; reflexivity|].
    apply Nat.succ_lt_mono in Hj. destruct (Nat.nlt_0_r j Hj).
  - reflexivity.
  - reflexivity.
Defined.

(** A 302 whose body carries a text is read like a 200. *)
Lemma gemini_api_call_accepts_non_error_status_witness :
  gemini_api_call
    (fun _ _ => inr (response_with 302
                       (Normal (body_with_text (py " Moved. ")))))
    module_config (py "prompt") (py "instruction") 600 3 world0
  = (Normal (py "Moved."),
     {| sent := 1;
        log := [EPost (request module_config (py "prompt")
                         (py "instruction") 600)] |}).
Proof.
  apply (gemini_api_call_accepts_non_error_status
           (fun _ _ => inr (response_with 302
                              (Normal (body_with_text (py " Moved. ")))))
           module_config (py "prompt") (py "instruction") 600 3 world0 0
           (response_with 302 (Normal (body_with_text (py " Moved. "))))
           (body_with_text (py " Moved. ")) (py " Moved. ")).
  - reflexivity.
  - intros j Hj. destruct (Nat.nlt_0_r j Hj).
  - reflexivity.
  - left. reflexivity.
  - reflexivity.
  - reflexivity.
Defined.

(** The empty object as body: the empty string, and no report. *)
Lemma gemini_api_call_missing_key_is_silent_witness :
  gemini_api_call (fun _ _ => inr (response_with 200 (Normal (PDict []))))
    module_config (py "prompt") (py "instruction") 600 3 world0
  = (Normal [],
     {| sent := 1;
        log := [EPost (request module_config (py "prompt")
                         (py "instruction") 600)] |}).
Proof.
  apply (gemini_api_call_missing_key_is_silent
           (fun _ _ => inr (response_with 200 (Normal (PDict []))))
           module_config (py "prompt") (py "instruction") 600 3 world0 0
           (response_with 200 (Normal (PDict []))) (PDict [])).
  - reflexivity.
  - intros j Hj. destruct (Nat.nlt_0_r j Hj).
  - reflexivity.
  - left. reflexivity.
  - reflexivity.
  - exists []. split; [reflexivity|]. left. reflexivity.
Defined.

(** An instruction that does contain [Summarize]: 0.7 on every POST. *)
Lemma gemini_api_call_temperature_rule_witness :
  exists evs,
    log (snd (gemini_api_call (net_status 503) module_config (py "prompt")
                (py "Summarize this.") 600 3 world0)) = evs
    /\ Forall (fun r => temperature_of r = Some (7 # 10)%Q) (posts_of evs).
Proof.
  destruct (gemini_api_call_temperature_rule (net_status 503) module_config
              (py "prompt") (py "Summarize this.") 600 3 world0)
    as (evs & Hl & H07 & _).
  exists evs. split; [exact Hl|]. apply H07.
  exists [], (py " this."). reflexivity.
Defined.


(** Three 503 responses to Stage 1. *)
Lemma handler_stage1_exhausted_witness :
  on_generate_and_summarize (net_status 503) module_config sample_title
    sample_style (label Short) world0
  = (Completed,
     {| sent := 3;
        log := [ESpinner (msg_spinner1 module_config sample_title);
                ECallGenerate sample_title;
                EPost (stage1_request module_config sample_title); ESleep 1;
                EPost (stage1_request module_config sample_title); ESleep 2;
                EPost (stage1_request module_config sample_title);
                EError (msg_final 3 unavailable);
                EError (msg_stage1_failed module_config)] |}).
Proof.
  apply (handler_stage1_exhausted (net_status 503) module_config
           sample_title sample_style (label Short) world0
           (fun _ => unavailable)).
  - intros H. discriminate H.
  - intros i Hi. split; reflexivity.
Defined.

(** An abstract, then a summary, each at the first POST. *)
Lemma handler_succeeds_first_try_witness :
  on_generate_and_summarize
    (net_seq [inr abstract_response] (inr summary_response))
    module_config sample_title sample_style (label Short) world0
  = (Completed,
     {| sent := 2;
        log := [ESpinner (msg_spinner1 module_config sample_title);
                ECallGenerate sample_title;
                EPost (stage1_request module_config sample_title);
                ESubheader (msg_subheader sample_title);
                EMarkdown (msg_style_length sample_style (label Short));
                ESpinner (msg_spinner2 module_config);
                ECallSummarize (py "An abstract.") sample_title sample_style
                  (label Short);
                EPost (stage2_request module_config (py "An abstract.")
                         sample_title sample_style Short);
                EMarkdown [Text (py "---")];
                EMarkdown [Text (py "A summary.")];
                EMarkdown [Text (py "---")];
                EExpander msg_expander; ECode (py "An abstract.")] |}).
Proof.
  apply (handler_succeeds_first_try
           (net_seq [inr abstract_response] (inr summary_response))
           module_config sample_title sample_style Short world0
           abstract_response summary_response
           (body_with_text (py "  An abstract.  "))
           (body_with_text (py "A summary."))
           (py "  An abstract.  ") (py "A summary.")).
  - intros H. discriminate H.
  - reflexivity.
  - left. reflexivity.
  - reflexivity.
  - reflexivity.
  - intros H. discriminate H.
  - reflexivity.
  - left. reflexivity.
  - reflexivity.
  - reflexivity.
Defined.

(** An abstract at the first POST, then time-outs only. *)
Lemma handler_stage2_exhausted_witness :
  on_generate_and_summarize
    (net_seq [inr abstract_response] (inl timed_out))
    module_config sample_title sample_style (label Short) world0
  = (Completed,
     {| sent := 4;
        log := [ESpinner (msg_spinner1 module_config sample_title);
                ECallGenerate sample_title;
                EPost (stage1_request module_config sample_title);
                ESubheader (msg_subheader sample_title);
                EMarkdown (msg_style_length sample_style (label Short));
                ESpinner (msg_spinner2 module_config);
                ECallSummarize (py "An abstract.") sample_title sample_style
                  (label Short);
                EPost (stage2_request module_config (py "An abstract.")
                         sample_title sample_style Short);
                ESleep 1;
                EPost (stage2_request module_config (py "An abstract.")
                         sample_title sample_style Short);
                ESleep 2;
                EPost (stage2_request module_config (py "An abstract.")
                         sample_title sample_style Short);
                EError (msg_final 3 timed_out);
                EError (msg_stage2_failed module_config);
                EMarkdown [Text (py "---")]; EMarkdown [Text []];
                EMarkdown [Text (py "---")];
                EExpander msg_expander; ECode (py "An abstract.")] |}).
Proof.
  apply (handler_stage2_exhausted
           (net_seq [inr abstract_response] (inl timed_out))
           module_config sample_title sample_style Short world0
           abstract_response (body_with_text (py "  An abstract.  "))
           (py "  An abstract.  ") (fun _ => timed_out)).
  - intros H. discriminate H.
  - reflexivity.
  - left. reflexivity.
  - reflexivity.
  - reflexivity.
  - intros H. discriminate H.
  - intros i Hi. destruct i; split; reflexivity.
Defined.

(** ** The call at its boundary: what can and what cannot escape *)

Section BoundaryFacts.

Import Boundary.

Variable net : nat -> Request -> raised + reply.
Variable cfg : config.



End BoundaryFacts.

(** The boundary embedding agrees with the first one on what the first one
    covers: string and integer arguments, a network that raises only
    exceptions derived from [Exception]. *)
Lemma boundary_agrees (net : nat -> Request -> exc + Response)
    (cfg : config) (user_prompt system_instruction : pystr)
    (max_tokens retry_count : Z) (w : world) :
  Boundary.gemini_api_call (Boundary.of_net net) cfg (PStr user_prompt)
    (PStr system_instruction) (PInt max_tokens) (PInt retry_count) w
  = Boundary.of_outcome
      (gemini_api_call net cfg user_prompt system_instruction max_tokens
         retry_count w).
Proof.
  unfold Boundary.gemini_api_call, gemini_api_call.
  unfold Boundary.bind at 1, Boundary.lift at 1.
  cbn [Boundary.contains_summarize Boundary.of_ctl].
  unfold Boundary.bind at 1, Boundary.lift at 1.
  cbn [Boundary.as_count Boundary.of_ctl fst snd].
  assert (Hreq : {| req_url := url cfg;
                    req_headers := headers;
                    req_data := Boundary.payload (PStr user_prompt)
                                  (PStr system_instruction) (PInt max_tokens)
                                  (contains (py "Summarize")
                                     system_instruction) |}
                 = request cfg user_prompt system_instruction max_tokens).
  { unfold request, payload, generation_config, temperature,
      Boundary.payload.
    now destruct (contains (py "Summarize") system_instruction). }
  rewrite Hreq.
  set (r := request cfg user_prompt system_instruction max_tokens).
  assert (Hit : forall i w0,
    Boundary.iteration (Boundary.of_net net) r retry_count
      (str_int retry_count) i w0
    = Boundary.of_outcome (iteration net r retry_count i w0)).
  { intros i w0.
    unfold Boundary.iteration, iteration, Boundary.try_except, try_except.
    rewrite try_body_unfold.
    unfold Boundary.try_body, Boundary.bind at 1, Boundary.requests_post,
      Boundary.of_net, posted.
    destruct (net (sent w0) r) as [e|resp].
    - cbn [find fst snd]. destruct (is_RequestException e).
      + destruct (i <? retry_count - 1); reflexivity.
      + reflexivity.
    - cbn [Boundary.head]. destruct (status_code resp =? 403);
        [reflexivity|].
      unfold Boundary.bind, Boundary.lift, Boundary.decode.
      cbn [Boundary.head Boundary.json_interrupted].
      destruct (raise_for_status resp) as [[]|e];
        cbn [Boundary.of_ctl ctl_bind].
      + destruct (json resp) as [result|e]; cbn [Boundary.of_ctl ctl_bind].
        * destruct (extract_text result) as [text|e];
            cbn [Boundary.of_ctl]; [reflexivity|].
          cbn [find fst snd]. destruct (is_RequestException e);
            [destruct (i <? retry_count - 1)|]; reflexivity.
        * cbn [find fst snd]. destruct (is_RequestException e);
            [destruct (i <? retry_count - 1)|]; reflexivity.
      + cbn [find fst snd]. destruct (is_RequestException e);
          [destruct (i <? retry_count - 1)|]; reflexivity. }
  generalize (range retry_count) as indices. intros indices. revert w.
  induction indices as [|i rest IH]; intros w; [reflexivity|].
  cbn [Boundary.for_loop for_loop]. unfold Boundary.bind at 1, bind at 1.
  rewrite Hit. unfold Boundary.of_outcome at 1.
  destruct (iteration_normal net r retry_count i w)
    as (o & w1 & evs & -> & _).
  cbn [fst snd Boundary.of_ctl]. destruct o as [s|]; [reflexivity|].
  apply IH.
Qed.



